(** * homeBonzenga: the Supabase authentication bridge

    A shallow embedding of the two TypeScript modules that make up the
    authentication layer of the marketplace frontend:

    - [frontend/src/lib/supabaseAuth.ts]  (class [SupabaseAuthService]) and
    - [frontend/src/contexts/SupabaseAuthContext.tsx]
      (component [SupabaseAuthProvider]).

    JavaScript values are modelled by an inductive type with the language's
    truthiness and string conversion, table rows and object literals by
    finite maps from property names to values, and [async] functions with
    [try]/[catch]/[finally] by a state-and-exception monad in which the state
    survives a [throw]. *)

From stdpp Require Import base option strings list gmap fin_maps.

Local Open Scope string_scope.

(** ** JavaScript values *)

Module Js.

(** The values a raw record coming back from the backend can hold: the two
    absent values, booleans, strings and nested plain objects. *)
#[warnings="-register-all"]
Inductive jsval : Type :=
  | JUndefined
  | JNull
  | JBool (b : bool)
  | JStr (s : string)
  | JObj (fields : list (string * jsval)).

(** [ToBoolean]: what [if (v)], [!v], [v || w] and [v ? a : b] test. *)
Definition truthy (v : jsval) : bool :=
  match v with
  | JUndefined | JNull => false
  | JBool b => b
  | JStr s => if decide (s = EmptyString) then false else true
  | JObj _ => true
  end.

(** [a || b] *)
Definition js_or (a b : jsval) : jsval := if truthy a then a else b.

(** [ToString], as applied by a template literal [`${v}`]. *)
Definition to_string (v : jsval) : string :=
  match v with
  | JUndefined => "undefined"
  | JNull => "null"
  | JBool true => "true"
  | JBool false => "false"
  | JStr s => s
  | JObj _ => "[object Object]"
  end.

(** Property lookup in a property list; the first binding of a key counts. *)
Fixpoint assoc (k : string) (l : list (string * jsval)) : jsval :=
  match l with
  | [] => JUndefined
  | (k', v) :: l' => if decide (k = k') then v else assoc k l'
  end.

(** [v.k] on a value already known to be truthy: a missing property, and any
    property of a primitive, reads as [undefined]. *)
Definition prop (v : jsval) (k : string) : jsval :=
  match v with
  | JObj fields => assoc k fields
  | _ => JUndefined
  end.

(** [o.k] on a top-level object held as a finite map. *)
Definition field (o : gmap string jsval) (k : string) : jsval :=
  default JUndefined (o !! k).

(** [a === b] against a string literal, as the [case] labels of a [switch]
    compare. *)
Definition is_str (v : jsval) (s : string) : bool :=
  match v with
  | JStr s' => bool_decide (s' = s)
  | _ => false
  end.

End Js.
Import Js.

(** ** The canonical user ([supabaseAuth.ts], interface [User]) *)

(** [User.vendor]: the nested vendor summary. *)
Record Vendor : Type := mkVendor {
  vendor_id : jsval;
  vendor_shopname : jsval;
  vendor_status : jsval
}.

(** The TypeScript interface gives the fields static types, but the mapper
    fills them from an [any] record without a runtime check, so each field
    holds whatever value the record held. *)
Record User : Type := mkUser {
  id : jsval;
  email : jsval;
  firstName : jsval;
  lastName : jsval;
  role : jsval;
  status : jsval;
  avatar : jsval;
  phone : jsval;
  vendor : option Vendor;
  name : string
}.

(** A raw record of the [users] table, as the backend client returns it. *)
Abbreviation Row := (gmap string jsval).

(** [SupabaseAuthService.mapDatabaseUserToUser] *)
Definition mapDatabaseUserToUser (dbUser : Row) : User :=
  {| id := field dbUser "id";
     email := field dbUser "email";
     firstName := js_or (field dbUser "first_name") (field dbUser "firstName");
     lastName := js_or (field dbUser "last_name") (field dbUser "lastName");
     role := field dbUser "role";
     status := field dbUser "status";
     avatar := field dbUser "avatar";
     phone := field dbUser "phone";
     vendor :=
       if truthy (field dbUser "vendor")
       then Some {| vendor_id := prop (field dbUser "vendor") "id";
                    vendor_shopname := prop (field dbUser "vendor") "shopname";
                    vendor_status := prop (field dbUser "vendor") "status" |}
       else None;
     name :=
       to_string (js_or (field dbUser "first_name") (field dbUser "firstName"))
       +:+ " " +:+
       to_string (js_or (field dbUser "last_name") (field dbUser "lastName")) |}.

(** ** Control flow of [async] functions

    An [async] function either returns or throws, and whatever it wrote
    before throwing stays written: the state is threaded through both
    outcomes, which is what gives [finally] its meaning. *)

(** A thrown value. The code builds them with [new Error(msg)] and receives
    them from the backend client; only [.message] is ever read. *)
Inductive exn : Type := Error (message : string).

Definition message (e : exn) : string := let 'Error m := e in m.

Inductive Outcome (A : Type) : Type :=
  | Returns (a : A)
  | Throws (e : exn).
Arguments Returns {A} a.
Arguments Throws {A} e.

Definition M (S A : Type) : Type := S → Outcome A * S.

Section Control.
Context {S : Type}.

#[export] Instance M_ret : MRet (M S) := λ A a s, (Returns a, s).

#[export] Instance M_bind : MBind (M S) := λ A B k m s,
  match m s with
  | (Returns a, s') => k a s'
  | (Throws e, s') => (Throws e, s')
  end.

(** [throw e] *)
Definition throw {A : Type} (e : exn) : M S A := λ s, (Throws e, s).

(** [try { body } catch (e) { handler e }] *)
Definition try_catch {A : Type} (body : M S A) (handler : exn → M S A) : M S A :=
  λ s, match body s with
       | (Returns a, s') => (Returns a, s')
       | (Throws e, s') => handler e s'
       end.

(** [try { body } finally { fin }]: [fin] runs on both outcomes of [body],
    and the outcome of [body] stands unless [fin] itself throws. *)
Definition try_finally {A : Type} (body : M S A) (fin : M S unit) : M S A :=
  λ s, match body s with
       | (r, s') =>
           match fin s' with
           | (Returns _, s'') => (r, s'')
           | (Throws e, s'') => (Throws e, s'')
           end
       end.

Definition gets {A : Type} (f : S → A) : M S A := λ s, (Returns (f s), s).

Definition modify (f : S → S) : M S unit := λ s, (Returns tt, f s).

(** A step that reads and writes the state and cannot throw. *)
Definition step {A : Type} (f : S → A * S) : M S A :=
  λ s, let (a, s') := f s in (Returns a, s').
End Control.

(** ** The result envelope ([frontend/src/lib/supabase.ts]) *)

(** The envelope every service method resolves to. Its shape is fixed by how
    the callers take it apart: [result.success], [result.data], and
    ['error' in result ? result.error : fallback], which allows a failure
    without an [error] property. *)
Inductive Envelope (A : Type) : Type :=
  | Success (data : A)
  | Failure (error : option string).
Arguments Success {A} data.
Arguments Failure {A} error.

(** Modelled from the spec: [handleSupabaseSuccess] is defined in
    [frontend/src/lib/supabase.ts], which is not part of the sources at
    hand. The data model has a success envelope carry its payload. *)
Definition handleSupabaseSuccess {A : Type} (data : A) : Envelope A := Success data.

(** Modelled from the spec: [handleSupabaseError] is defined in
    [frontend/src/lib/supabase.ts], which is not part of the sources at
    hand. A failure envelope carries the human-readable message, taken
    verbatim from the error. *)
Definition handleSupabaseError {A : Type} (error : exn) : Envelope A :=
  Failure (Some (message error)).

(** ** The backend client ([supabase], external)

    The hosted platform is reached only through the client handle. Its
    answers are inputs of the model; the two tables are a store. *)

(** [authData.user] / [authUser]: only [.id] is read. *)
Record AuthUser : Type := mkAuthUser { au_id : string }.

(** A provider session object; opaque. *)
Record Session : Type := mkSession { access_token : string }.

(** [{ data: { user, session }, error }] of [supabase.auth.signInWithPassword]. *)
Record AuthResponse : Type := mkAuthResponse {
  ar_user : option AuthUser;
  ar_session : option Session;
  ar_error : option exn
}.

(** [{ data: { user }, error }] of [supabase.auth.getUser]. *)
Record UserResponse : Type := mkUserResponse {
  ur_user : option AuthUser;
  ur_error : option exn
}.

(** [{ data, error }] of a single-row query on [users]. *)
Record QueryResponse : Type := mkQueryResponse {
  q_data : option Row;
  q_error : option exn
}.

(** The requests that leave the process. *)
Inductive Request : Type :=
  | ReqSignInWithPassword (email password : string)
  | ReqSignOut
  | ReqGetUser
  | ReqSelectUser (idv : jsval)
  | ReqUpdateUser (idv : jsval) (patch : list (string * jsval)).

Record Backend : Type := mkBackend {
  (** what [auth.signInWithPassword] answers to a pair of credentials *)
  be_signInWithPassword : string → string → AuthResponse;
  (** the [error] of [auth.signOut] *)
  be_signOut : option exn;
  (** what [auth.getUser] answers *)
  be_getUser : UserResponse;
  (** table [users], by primary key [id] *)
  be_users : gmap string Row;
  (** table [vendors], by the owning user's id *)
  be_vendors : gmap string jsval;
  (** the transport error that requests on the tables currently meet, if any *)
  be_fault : option exn;
  (** the requests sent so far, oldest first *)
  be_requests : list Request
}.

Definition set_users (t : gmap string Row) (b : Backend) : Backend :=
  {| be_signInWithPassword := be_signInWithPassword b;
     be_signOut := be_signOut b;
     be_getUser := be_getUser b;
     be_users := t;
     be_vendors := be_vendors b;
     be_fault := be_fault b;
     be_requests := be_requests b |}.

Definition add_request (r : Request) (b : Backend) : Backend :=
  {| be_signInWithPassword := be_signInWithPassword b;
     be_signOut := be_signOut b;
     be_getUser := be_getUser b;
     be_users := be_users b;
     be_vendors := be_vendors b;
     be_fault := be_fault b;
     be_requests := be_requests b ++ [r] |}.

Module Client.

(** [supabase.auth.signInWithPassword({ email, password })] *)
Definition signInWithPassword (email password : string) : M Backend AuthResponse :=
  modify (add_request (ReqSignInWithPassword email password));;
  gets (λ b, be_signInWithPassword b email password).

(** [supabase.auth.signOut()] *)
Definition signOut : M Backend (option exn) :=
  modify (add_request ReqSignOut);;
  gets be_signOut.

(** [supabase.auth.getUser()] *)
Definition getUser : M Backend UserResponse :=
  modify (add_request ReqGetUser);;
  gets be_getUser.

(** The rows [.eq('id', v)] keeps: the one whose key is the string [v]. *)
Definition eq_id (t : gmap string Row) (idv : jsval) : option Row :=
  match idv with
  | JStr key => t !! key
  | _ => None
  end.

(** The embedded resource [vendor:vendors(id, shopname, status)]. *)
Definition embed_vendor (b : Backend) (idv : jsval) (row : Row) : Row :=
  <["vendor" := default JNull (be_vendors b !! to_string idv)]> row.

(** [supabase.from('users').select(`*, vendor:vendors(id, shopname, status)`)
      .eq('id', idv).maybeSingle()]:
    no row is [data: null] without an error
    (SUPABASE_SINGLE_QUERY_FIX.md). *)
Definition select_user_maybeSingle (idv : jsval) : M Backend QueryResponse :=
  modify (add_request (ReqSelectUser idv));;
  gets (λ b,
    match be_fault b with
    | Some e => {| q_data := None; q_error := Some e |}
    | None => {| q_data := embed_vendor b idv <$> eq_id (be_users b) idv;
                 q_error := None |}
    end).

(** What the table does with the body of an update: a property whose value
    is [undefined] is not serialised, every other property overwrites its
    column. *)
Definition apply_patch (patch : list (string * jsval)) (row : Row) : Row :=
  foldl (λ r kv, match kv.2 with
                 | JUndefined => r
                 | v => <[kv.1 := v]> r
                 end) row patch.

(** The 406 that [.single()] answers when no row matches
    (SUPABASE_SINGLE_QUERY_FIX.md). *)
Definition no_single_row : exn :=
  Error "Cannot coerce the result to a single JSON object".

(** The table's side of [.update(patch).eq('id', idv).select().single()] *)
Definition update_row (patch : list (string * jsval)) (idv : jsval) (b : Backend)
  : QueryResponse * Backend :=
  match be_fault b with
  | Some e => ({| q_data := None; q_error := Some e |}, b)
  | None =>
      match idv with
      | JStr key =>
          match be_users b !! key with
          | Some row =>
              let row' := apply_patch patch row in
              ({| q_data := Some row'; q_error := None |},
               set_users (<[key := row']> (be_users b)) b)
          | None => ({| q_data := None; q_error := Some no_single_row |}, b)
          end
      | _ => ({| q_data := None; q_error := Some no_single_row |}, b)
      end
  end.

(** [supabase.from('users').update(patch).eq('id', idv).select().single()] *)
Definition update_user_single (patch : list (string * jsval)) (idv : jsval)
  : M Backend QueryResponse :=
  modify (add_request (ReqUpdateUser idv patch));;
  step (update_row patch idv).

End Client.

(** ** The authentication service ([frontend/src/lib/supabaseAuth.ts]) *)

(** The payload of a successful sign-in, [{ user, session }]. *)
Record SignInData : Type := mkSignInData {
  sd_user : User;
  sd_session : Session
}.

Module SupabaseAuthService.

(** [async signIn(email, password)] *)
Definition signIn (email password : string) : M Backend (Envelope SignInData) :=
  try_catch
    (authData ← Client.signInWithPassword email password;
     match ar_error authData with
     | Some authError => throw authError
     | None =>
         match ar_user authData, ar_session authData with
         | Some authUser, Some session =>
             q ← Client.select_user_maybeSingle (JStr (au_id authUser));
             match q_error q with
             | Some userError => throw userError
             | None =>
                 match q_data q with
                 | None => throw (Error "User profile not found")
                 | Some userData =>
                     mret (handleSupabaseSuccess
                             {| sd_user := mapDatabaseUserToUser userData;
                                sd_session := session |})
                 end
             end
         | _, _ => throw (Error "Failed to sign in")
         end
     end)
    (λ error, mret (handleSupabaseError error)).

(** [async signOut()] *)
Definition signOut : M Backend (Envelope unit) :=
  try_catch
    (error ← Client.signOut;
     match error with
     | Some e => throw e
     | None => mret (handleSupabaseSuccess tt)
     end)
    (λ error, mret (handleSupabaseError error)).

(** [async getCurrentUser()] *)
Definition getCurrentUser : M Backend (Envelope (option User)) :=
  try_catch
    (r ← Client.getUser;
     match ur_error r with
     | Some authError => throw authError
     | None =>
         match ur_user r with
         | None => mret (handleSupabaseSuccess None)
         | Some authUser =>
             q ← Client.select_user_maybeSingle (JStr (au_id authUser));
             match q_error q with
             | Some userError => throw userError
             | None =>
                 match q_data q with
                 | None => mret (handleSupabaseSuccess None)
                 | Some userData =>
                     mret (handleSupabaseSuccess (Some (mapDatabaseUserToUser userData)))
                 end
             end
         end
     end)
    (λ error, mret (handleSupabaseError error)).

(** The object literal handed to [.update(...)]. *)
Definition update_body (updates : gmap string jsval) : list (string * jsval) :=
  [ ("first_name", field updates "firstName");
    ("last_name", field updates "lastName");
    ("phone", field updates "phone");
    ("avatar", field updates "avatar") ].

(** [async updateProfile(userId, updates)]. Were [data] null without an
    error, the mapper's first property read would throw a [TypeError]. *)
Definition updateProfile (userId : jsval) (updates : gmap string jsval)
  : M Backend (Envelope User) :=
  try_catch
    (q ← Client.update_user_single (update_body updates) userId;
     match q_error q with
     | Some error => throw error
     | None =>
         match q_data q with
         | Some data => mret (handleSupabaseSuccess (mapDatabaseUserToUser data))
         | None => throw (Error "Cannot read properties of null (reading 'id')")
         end
     end)
    (λ error, mret (handleSupabaseError error)).

End SupabaseAuthService.

(** The part of the service the provider component calls. Every method is an
    [async] function: it resolves to an envelope or rejects. *)
Record AuthService : Type := mkAuthService {
  svc_signIn : string → string → M Backend (Envelope SignInData);
  svc_signOut : M Backend (Envelope unit);
  svc_getCurrentUser : M Backend (Envelope (option User));
  svc_updateProfile : jsval → gmap string jsval → M Backend (Envelope User)
}.

(** [export const supabaseAuth = new SupabaseAuthService()] *)
Definition supabaseAuth : AuthService :=
  {| svc_signIn := SupabaseAuthService.signIn;
     svc_signOut := SupabaseAuthService.signOut;
     svc_getCurrentUser := SupabaseAuthService.getCurrentUser;
     svc_updateProfile := SupabaseAuthService.updateProfile |}.

(** ** The provider component ([frontend/src/contexts/SupabaseAuthContext.tsx]) *)

(** What the component does to its surroundings. *)
Inductive Effect : Type :=
  | ToastError (msg : string)
  | ToastSuccess (msg : string)
  | Navigate (path : string)
  | ConsoleError (label : string) (err : exn)
  | ConsoleLog (label : string).

(** The two [useState] cells, the effects performed so far (oldest first)
    and the backend. *)
Record World : Type := mkWorld {
  user : option User;
  isLoading : bool;
  effects : list Effect;
  backend : Backend
}.

Definition setUser (u : option User) : M World unit :=
  modify (λ w, {| user := u; isLoading := isLoading w;
                  effects := effects w; backend := backend w |}).

Definition setIsLoading (l : bool) : M World unit :=
  modify (λ w, {| user := user w; isLoading := l;
                  effects := effects w; backend := backend w |}).

Definition emit (e : Effect) : M World unit :=
  modify (λ w, {| user := user w; isLoading := isLoading w;
                  effects := effects w ++ [e]; backend := backend w |}).

(** [await] on a service call: the call runs against the backend. *)
Definition await {A : Type} (m : M Backend A) : M World A :=
  λ w, let (r, b) := m (backend w) in
       (r, {| user := user w; isLoading := isLoading w;
              effects := effects w; backend := b |}).

Module SupabaseAuthProvider.
Section Provider.

(** The service singleton the component imports. *)
Variable auth : AuthService.

(** [getDashboardPath(userRole?)]; [user] is the component's current user,
    which the function closes over. *)
Definition getDashboardPath (user : option User) (userRole : jsval) : string :=
  let role := js_or userRole (from_option role JUndefined user) in
  if negb (truthy role) then "/"
  else if is_str role "ADMIN" then "/admin"
  else if is_str role "MANAGER" then "/manager"
  else if is_str role "VENDOR" then "/vendor"
  else "/customer".

(** [redirectToDashboard()] *)
Definition redirectToDashboard : M World unit :=
  u ← gets user;
  emit (Navigate (getDashboardPath u JUndefined)).

(** [login(email, password)] *)
Definition login (email password : string) : M World unit :=
  u ← gets user;
  setIsLoading true;;
  try_finally
    (try_catch
       (result ← await (svc_signIn auth email password);
        match result with
        | Failure error =>
            let errorMessage := default "Login failed" error in
            emit (ToastError errorMessage);;
            throw (Error errorMessage)
        | Success data =>
            setUser (Some (sd_user data));;
            emit (ToastSuccess "Login successful");;
            emit (Navigate (getDashboardPath u (role (sd_user data))))
        end)
       (λ err, emit (ConsoleError "Login error:" err);; throw err))
    (setIsLoading false).

(** [logout()] *)
Definition logout : M World unit :=
  setIsLoading true;;
  try_finally
    (try_catch
       (result ← await (svc_signOut auth);
        match result with
        | Failure error =>
            let errorMessage := default "Logout failed" error in
            emit (ToastError errorMessage);;
            throw (Error errorMessage)
        | Success _ =>
            setUser None;;
            emit (ToastSuccess "Logged out successfully");;
            emit (Navigate "/")
        end)
       (λ err, emit (ConsoleError "Logout error:" err);; throw err))
    (setIsLoading false).

(** [refreshToken()] *)
Definition refreshToken : M World unit :=
  try_catch
    (userResult ← await (svc_getCurrentUser auth);
     match userResult with
     | Success (Some data) => setUser (Some data)
     | _ => setUser None
     end)
    (λ err, emit (ConsoleError "Refresh token error:" err);;
            setUser None;;
            throw err).

(** [updateProfile(updates)] *)
Definition updateProfile (updates : gmap string jsval) : M World unit :=
  u ← gets user;
  match u with
  | None => throw (Error "No user logged in")
  | Some current =>
      setIsLoading true;;
      try_finally
        (try_catch
           (result ← await (svc_updateProfile auth (id current) updates);
            match result with
            | Failure error =>
                let errorMessage := default "Profile update failed" error in
                emit (ToastError errorMessage);;
                throw (Error errorMessage)
            | Success data =>
                setUser (Some data);;
                emit (ToastSuccess "Profile updated successfully")
            end)
           (λ err, emit (ConsoleError "Profile update error:" err);; throw err))
        (setIsLoading false)
  end.

(** The two branches of the listener that re-read the user. *)
Definition fetch_and_install : M World unit :=
  userResult ← await (svc_getCurrentUser auth);
  match userResult with
  | Success (Some data) => setUser (Some data)
  | _ => mret tt
  end.

(** The callback given to [supabase.auth.onAuthStateChange]. *)
Definition onAuthStateChange (event : string) (session : option Session)
  : M World unit :=
  emit (ConsoleLog "Auth state changed:");;
  (if bool_decide (event = "SIGNED_IN") && bool_decide (is_Some session)
   then fetch_and_install
   else if bool_decide (event = "SIGNED_OUT")
   then setUser None
   else if bool_decide (event = "TOKEN_REFRESHED") && bool_decide (is_Some session)
   then fetch_and_install
   else mret tt);;
  setIsLoading false.

End Provider.
End SupabaseAuthProvider.

(** ** The specification's tables, in its own words *)

(** The role router of the specification: ADMIN, MANAGER and VENDOR have
    their own surface and every other role that is present goes to the
    customer surface. *)
Definition role_table (r : string) : string :=
  if decide (r = "ADMIN") then "/admin"
  else if decide (r = "MANAGER") then "/manager"
  else if decide (r = "VENDOR") then "/vendor"
  else "/customer".

(** The session events of the specification's data model. *)
Inductive PushEvent : Type :=
  | SignedIn
  | SignedOut
  | TokenRefreshed
  | OtherEvent.

(** Which row of the push-event table an event falls under: the signed-in
    and token-refreshed rows ask for a session, the signed-out row does not. *)
Definition classify (event : string) (session : option Session) : PushEvent :=
  match session with
  | Some _ =>
      if decide (event = "SIGNED_IN") then SignedIn
      else if decide (event = "SIGNED_OUT") then SignedOut
      else if decide (event = "TOKEN_REFRESHED") then TokenRefreshed
      else OtherEvent
  | None =>
      if decide (event = "SIGNED_OUT") then SignedOut else OtherEvent
  end.

(** The effect column of the push-event table on the local user, given what
    the fetch of the canonical user came back with. *)
Definition push_table (k : PushEvent) (fetched : Outcome (Envelope (option User)))
    (current : option User) : option User :=
  match k with
  | SignedIn | TokenRefreshed =>
      match fetched with
      | Returns (Success (Some data)) => Some data
      | _ => current
      end
  | SignedOut => None
  | OtherEvent => current
  end.

(** The columns the profile update is meant to write. *)
Definition profile_columns : list string :=
  ["first_name"; "last_name"; "phone"; "avatar"].

(** The property keys under which a record can carry the two names. *)
Definition name_keys : list string :=
  ["first_name"; "last_name"; "firstName"; "lastName"].

(** A record that carries the names [f] and [l] only in snake case. *)
Definition snake_only (row : Row) (f l : jsval) : Prop :=
  row !! "first_name" = Some f ∧ row !! "last_name" = Some l ∧
  row !! "firstName" = None ∧ row !! "lastName" = None.

(** A record that carries the names [f] and [l] only in camel case. *)
Definition camel_only (row : Row) (f l : jsval) : Prop :=
  row !! "firstName" = Some f ∧ row !! "lastName" = Some l ∧
  row !! "first_name" = None ∧ row !! "last_name" = None.

(** Two records that agree on every field other than the name fields. *)
Definition agree_elsewhere (a b : Row) : Prop :=
  ∀ k, k ∉ name_keys → a !! k = b !! k.

(** ** Concrete records, backends and worlds *)

Module Sample.

(** The record of the specification's end-to-end example. *)
Definition ana_row : Row :=
  <["id" := JStr "u1"]> (<["email" := JStr "a@b.com"]>
  (<["first_name" := JStr "Ana"]> (<["last_name" := JStr "Lee"]>
  (<["role" := JStr "VENDOR"]> (<["status" := JStr "ACTIVE"]> ∅))))).

Definition ana : User := mapDatabaseUserToUser ana_row.

(** The row [handleOAuthCallback] inserts for a provider profile without a
    usable full name: [first_name: 'User'], [last_name: '']. *)
Definition snake_row : Row :=
  <["id" := JStr "u2"]> (<["email" := JStr "m@b.com"]>
  (<["first_name" := JStr "User"]> (<["last_name" := JStr EmptyString]>
  (<["role" := JStr "CUSTOMER"]> (<["status" := JStr "ACTIVE"]> ∅))))).

(** The same record with the two names under their camel-case keys. *)
Definition camel_row : Row :=
  <["id" := JStr "u2"]> (<["email" := JStr "m@b.com"]>
  (<["firstName" := JStr "User"]> (<["lastName" := JStr EmptyString]>
  (<["role" := JStr "CUSTOMER"]> (<["status" := JStr "ACTIVE"]> ∅))))).

(** A backend that knows Ana, accepts her credentials and also those of an
    account [u9] that has no profile row. *)
Definition answers (email password : string) : AuthResponse :=
  if decide (email = "a@b.com" ∧ password = "secret")
  then {| ar_user := Some (mkAuthUser "u1");
          ar_session := Some (mkSession "t1");
          ar_error := None |}
  else if decide (email = "n@b.com" ∧ password = "secret")
  then {| ar_user := Some (mkAuthUser "u9");
          ar_session := Some (mkSession "t9");
          ar_error := None |}
  else {| ar_user := None; ar_session := None;
          ar_error := Some (Error "Invalid login credentials") |}.

Definition online : Backend :=
  {| be_signInWithPassword := answers;
     be_signOut := None;
     be_getUser := {| ur_user := Some (mkAuthUser "u1"); ur_error := None |};
     be_users := {["u1" := ana_row]};
     be_vendors := ∅;
     be_fault := None;
     be_requests := [] |}.

(** The same backend with nobody signed in. *)
Definition signed_out : Backend :=
  {| be_signInWithPassword := answers;
     be_signOut := None;
     be_getUser := {| ur_user := None; ur_error := None |};
     be_users := {["u1" := ana_row]};
     be_vendors := ∅;
     be_fault := None;
     be_requests := [] |}.

(** A backend out of reach: sign-out and the tables fail. *)
Definition offline : Backend :=
  {| be_signInWithPassword := answers;
     be_signOut := Some (Error "Failed to fetch");
     be_getUser := {| ur_user := None; ur_error := Some (Error "Failed to fetch") |};
     be_users := {["u1" := ana_row]};
     be_vendors := ∅;
     be_fault := Some (Error "Failed to fetch");
     be_requests := [] |}.

Definition world (u : option User) (l : bool) (b : Backend) : World :=
  {| user := u; isLoading := l; effects := []; backend := b |}.

(** A service whose promises all reject. *)
Definition rejecting : AuthService :=
  {| svc_signIn := λ _ _, throw (Error "Failed to fetch");
     svc_signOut := throw (Error "Failed to fetch");
     svc_getCurrentUser := throw (Error "Failed to fetch");
     svc_updateProfile := λ _ _, throw (Error "Failed to fetch") |}.

(** An update that also names fields the service does not write. *)
Definition greedy_updates : gmap string jsval :=
  <["firstName" := JStr "Anna"]> (<["role" := JStr "ADMIN"]>
  (<["email" := JStr "x@y.com"]> (<["id" := JStr "u7"]> ∅))).

End Sample.

(** ** Strings: [split] and [join] *)

From Stdlib Require Import Ascii.

Module JsString.

(** [s.split(sep)] for a one-character separator: never the empty array. *)
Fixpoint split (sep : ascii) (s : string) : list string :=
  match s with
  | EmptyString => [EmptyString]
  | String c s' =>
      if decide (c = sep) then EmptyString :: split sep s'
      else match split sep s' with
           | x :: xs => String c x :: xs
           | [] => [String c EmptyString]
           end
  end.

(** [parts.join(sep)] *)
Fixpoint join (sep : string) (parts : list string) : string :=
  match parts with
  | [] => EmptyString
  | [x] => x
  | x :: rest => x +:+ sep +:+ join sep rest
  end.

(** Whether the character occurs in the string. *)
Fixpoint occurs (c : ascii) (s : string) : bool :=
  match s with
  | EmptyString => false
  | String c' s' => if decide (c' = c) then true else occurs c s'
  end.

End JsString.

(** ** Profile rows the service inserts ([supabaseAuth.ts]) *)

(** [RegisterData] *)
Record RegisterData : Type := mkRegisterData {
  rd_email : string;
  rd_password : string;
  rd_firstName : string;
  rd_lastName : string;
  rd_phone : option string;
  rd_role : option string
}.

(** [data.session.user] as [handleOAuthCallback] reads it: the id, the
    e-mail address, and the two entries of [user_metadata] that the identity
    provider may supply, each a string or missing. *)
Record OAuthUser : Type := mkOAuthUser {
  ou_id : string;
  ou_email : option string;
  ou_full_name : option string;
  ou_avatar_url : option string
}.

(** An optional string as a JavaScript value. *)
Definition opt_str (o : option string) : jsval :=
  match o with
  | Some s => JStr s
  | None => JUndefined
  end.

Module SupabaseAuthInserts.

(** [full_name?.split(' ')[0]] *)
Definition first_word (full_name : option string) : jsval :=
  match full_name with
  | Some s => JStr (hd EmptyString (JsString.split " "%char s))
  | None => JUndefined
  end.

(** [full_name?.split(' ').slice(1).join(' ')] *)
Definition other_words (full_name : option string) : jsval :=
  match full_name with
  | Some s => JStr (JsString.join " " (tl (JsString.split " "%char s)))
  | None => JUndefined
  end.

(** The object literal [handleOAuthCallback] inserts into [users] for a
    session whose user has no profile yet. *)
Definition oauth_insert_body (u : OAuthUser) : list (string * jsval) :=
  [ ("id", JStr (ou_id u));
    ("email", js_or (opt_str (ou_email u)) (JStr EmptyString));
    ("first_name", js_or (first_word (ou_full_name u)) (JStr "User"));
    ("last_name", js_or (other_words (ou_full_name u)) (JStr EmptyString));
    ("role", JStr "CUSTOMER");
    ("status", JStr "ACTIVE");
    ("password", JStr EmptyString);
    ("avatar", js_or (opt_str (ou_avatar_url u)) JNull) ].

(** The object literal [createUserProfile] inserts into [users]. *)
Definition profile_insert_body (userId : string) (userData : RegisterData)
  : list (string * jsval) :=
  [ ("id", JStr userId);
    ("email", JStr (rd_email userData));
    ("first_name", JStr (rd_firstName userData));
    ("last_name", JStr (rd_lastName userData));
    ("phone", opt_str (rd_phone userData));
    ("role", js_or (opt_str (rd_role userData)) (JStr "CUSTOMER"));
    ("status", JStr "ACTIVE");
    ("password", JStr EmptyString) ].

(** A row that holds what an insert body said. *)
Definition holds (row : Row) (body : list (string * jsval)) : Prop :=
  ∀ k v, (k, v) ∈ body → v ≠ JUndefined → row !! k = Some v.

End SupabaseAuthInserts.

(** ** The rest of the provider component ([SupabaseAuthContext.tsx]) *)

(** The payload of a successful sign-up, [{ user, session }]; the session is
    null while the address awaits confirmation. *)
Record SignUpData : Type := mkSignUpData {
  su_user : option User;
  su_session : option Session
}.

(** The payload of a successful OAuth hand-off; the component does not read
    it. *)
Record OAuthData : Type := mkOAuthData { oauth_url : string }.

(** The other service methods the component calls. *)
Record AccountService : Type := mkAccountService {
  svc_signUp : RegisterData → M Backend (Envelope SignUpData);
  svc_signInWithGoogle : M Backend (Envelope OAuthData);
  svc_getCurrentSession : M Backend (Envelope (option Session));
  svc_resetPassword : string → M Backend (Envelope unit)
}.

(** [!s] on an optional string argument: missing or empty. *)
Definition missing (o : option string) : bool := negb (truthy (opt_str o)).

Module SupabaseAuthAccount.
Section Provider.

Variable auth : AuthService.
Variable account : AccountService.

(** [getInitialSession()], run once by the mount effect *)
Definition getInitialSession : M World unit :=
  try_finally
    (try_catch
       (sessionResult ← await (svc_getCurrentSession account);
        match sessionResult with
        | Success (Some _) =>
            userResult ← await (svc_getCurrentUser auth);
            match userResult with
            | Success (Some data) => setUser (Some data)
            | _ => mret tt
            end
        | _ => mret tt
        end)
       (λ error, emit (ConsoleError "Error getting initial session:" error)))
    (setIsLoading false).

(** [loginWithGoogle()] *)
Definition loginWithGoogle : M World unit :=
  setIsLoading true;;
  try_finally
    (try_catch
       (result ← await (svc_signInWithGoogle account);
        match result with
        | Failure error =>
            let errorMessage := default "Google login failed" error in
            emit (ToastError errorMessage);;
            throw (Error errorMessage)
        | Success _ => mret tt
        end)
       (λ err, emit (ConsoleError "Google login error:" err);; throw err))
    (setIsLoading false).

(** What [register] and the e-mail branch of [handleSignup] do with a
    successful sign-up; [u] is the user the component closes over. Reading
    [.role] of a null user is a [TypeError]. *)
Definition after_signUp (u : option User) (data : SignUpData) : M World unit :=
  match su_session data with
  | Some _ =>
      setUser (su_user data);;
      emit (ToastSuccess "Registration successful");;
      match su_user data with
      | Some registered =>
          emit (Navigate (SupabaseAuthProvider.getDashboardPath u (role registered)))
      | None => throw (Error "Cannot read properties of null (reading 'role')")
      end
  | None =>
      emit (ToastSuccess
        "Registration successful! Please check your email to confirm your account.");;
      emit (Navigate "/login")
  end.

(** [register(data)] *)
Definition register (data : RegisterData) : M World unit :=
  u ← gets user;
  setIsLoading true;;
  try_finally
    (try_catch
       (result ← await (svc_signUp account data);
        match result with
        | Failure error =>
            let errorMessage := default "Registration failed" error in
            emit (ToastError errorMessage);;
            throw (Error errorMessage)
        | Success payload => after_signUp u payload
        end)
       (λ err, emit (ConsoleError "Registration error:" err);; throw err))
    (setIsLoading false).

(** [handleSignup(provider, email?, password?, userData?)] *)
Definition handleSignup (provider : string) (email password : option string)
    (userData : option RegisterData) : M World unit :=
  u ← gets user;
  setIsLoading true;;
  try_finally
    (try_catch
       (if decide (provider = "google") then
          result ← await (svc_signInWithGoogle account);
          match result with
          | Failure error =>
              let errorMessage := default "Google signup failed" error in
              emit (ToastError errorMessage);;
              throw (Error errorMessage)
          | Success _ => emit (ToastSuccess "Redirecting to Google...")
          end
        else
          match missing email || missing password, userData with
          | false, Some data =>
              result ← await (svc_signUp account data);
              match result with
              | Failure error =>
                  let errorMessage := default "Registration failed" error in
                  emit (ToastError errorMessage);;
                  throw (Error errorMessage)
              | Success payload => after_signUp u payload
              end
          | _, _ =>
              throw (Error
                "Email, password, and user data are required for email signup")
          end)
       (λ err, emit (ConsoleError "Signup error:" err);; throw err))
    (setIsLoading false).

(** [resetPassword(email)] *)
Definition resetPassword (email : string) : M World unit :=
  setIsLoading true;;
  try_finally
    (try_catch
       (result ← await (svc_resetPassword account email);
        match result with
        | Failure error =>
            let errorMessage := default "Password reset failed" error in
            emit (ToastError errorMessage);;
            throw (Error errorMessage)
        | Success _ =>
            emit (ToastSuccess "Password reset email sent! Check your inbox.")
        end)
       (λ err, emit (ConsoleError "Password reset error:" err);; throw err))
    (setIsLoading false).

End Provider.
End SupabaseAuthAccount.

(** ** Strings: [includes] *)

Module JsSubstring.

(** [s.startsWith(p)] *)
Fixpoint starts_with (p s : string) : bool :=
  match p, s with
  | EmptyString, _ => true
  | String _ _, EmptyString => false
  | String c p', String d s' => if decide (c = d) then starts_with p' s' else false
  end.

(** [s.includes(needle)] *)
Fixpoint includes (needle s : string) : bool :=
  if starts_with needle s then true
  else match s with
       | EmptyString => false
       | String _ s' => includes needle s'
       end.

End JsSubstring.

(** ** The OAuth callback page ([OAuthCallbackPage]) *)

Module OAuthCallbackPage.

(** The page's own [getDashboardPath(userRole?)]. *)
Definition getDashboardPath (user : option User) (userRole : jsval) : string :=
  let role := js_or userRole (from_option role JUndefined user) in
  if negb (truthy role) then "/"
  else if is_str role "ADMIN" then "/admin"
  else if is_str role "MANAGER" then "/manager"
  else if is_str role "VENDOR" then "/vendor"
  else "/customer".

(** Where the page navigates once a session is there:
    [getDashboardPath(session.user.user_metadata?.role || 'CUSTOMER')]. *)
Definition destination (user : option User) (metadata_role : jsval) : string :=
  getDashboardPath user (js_or metadata_role (JStr "CUSTOMER")).

(** [data.session] as the page reads it: only
    [session.user.user_metadata?.role]. *)
Record PageSession : Type := mkPageSession { ps_metadata_role : jsval }.

(** [{ data: { session }, error }] of [supabase.auth.getSession()]. *)
Record SessionAnswer : Type := mkSessionAnswer {
  sa_session : option PageSession;
  sa_error : option exn
}.

(** What the page does: an effect at once, or one handed to
    [setTimeout(..., ms)]. *)
Inductive PageEffect : Type :=
  | Now (e : Effect)
  | After (ms : nat) (e : Effect).

(** The two [useState] cells of the page and what it has done so far. *)
Record Page : Type := mkPage {
  pg_status : string;
  pg_error : option string;
  pg_effects : list PageEffect
}.

Definition setStatus (s : string) : M Page unit :=
  modify (λ p, {| pg_status := s; pg_error := pg_error p;
                  pg_effects := pg_effects p |}).

Definition setError (e : option string) : M Page unit :=
  modify (λ p, {| pg_status := pg_status p; pg_error := e;
                  pg_effects := pg_effects p |}).

Definition perform (e : PageEffect) : M Page unit :=
  modify (λ p, {| pg_status := pg_status p; pg_error := pg_error p;
                  pg_effects := pg_effects p ++ [e] |}).

(** [await] on a promise that settles with the given outcome. *)
Definition settle {A : Type} (o : Outcome A) : M Page A := λ p, (o, p).

(** The test on the environment:
    [!supabaseUrl || !supabaseKey || supabaseUrl.includes('your-project-id')]. *)
Definition not_configured (supabaseUrl supabaseKey : option string) : bool :=
  missing supabaseUrl || missing supabaseKey ||
  JsSubstring.includes "your-project-id" (default EmptyString supabaseUrl).

(** [error.message || 'An unexpected error occurred'] *)
Definition message_of (error : exn) : string :=
  if decide (message error = EmptyString)
  then "An unexpected error occurred"
  else message error.

(** [handleOAuthCallback()], run by the page's mount effect. [user] is the
    provider's current user, the two strings are [VITE_SUPABASE_URL] and
    [VITE_SUPABASE_ANON_KEY], and [getSession] is how
    [supabase.auth.getSession()] settles. *)
Definition handleOAuthCallback (user : option User)
    (supabaseUrl supabaseKey : option string)
    (getSession : Outcome SessionAnswer) : M Page unit :=
  try_catch
    (setStatus "Finishing sign in...";;
     (if not_configured supabaseUrl supabaseKey
      then throw (Error
             "Supabase not configured. Please set up your environment variables.")
      else mret tt);;
     answer ← settle getSession;
     match sa_error answer with
     | Some sessionError =>
         perform (Now (ConsoleError "Session error:" sessionError));;
         throw (Error ("Session error: " +:+ message sessionError))
     | None =>
         match sa_session answer with
         | Some session =>
             setStatus "Login successful! Redirecting...";;
             perform (Now (ToastSuccess "Login successful!"));;
             perform (Now (ConsoleLog "Redirecting to:"));;
             perform (Now (Navigate (destination user (ps_metadata_role session))))
         | None =>
             throw (Error "No active session found. Please try logging in again.")
         end
     end)
    (λ error,
       perform (Now (ConsoleError "OAuth callback error:" error));;
       setError (Some (message_of error));;
       perform (Now (ToastError ("Login failed: " +:+ message_of error)));;
       perform (After 3000 (Navigate "/login"))).

(** The three tests of the page all pass: the environment is configured and
    [getSession] resolves without an error to a session. *)
Definition established (supabaseUrl supabaseKey : option string)
    (getSession : Outcome SessionAnswer) : option PageSession :=
  if not_configured supabaseUrl supabaseKey then None
  else match getSession with
       | Returns {| sa_session := Some session; sa_error := None |} => Some session
       | _ => None
       end.

End OAuthCallbackPage.

(** ** Vocabulary for the properties below *)

(** The value a body writes to a column, if it writes one: the last binding
    of the column whose value is not [undefined]. *)
Fixpoint written (patch : list (string * jsval)) (col : string) : option jsval :=
  match patch with
  | [] => None
  | (k, v) :: rest =>
      match written rest col with
      | Some w => Some w
      | None =>
          if decide (col = k)
          then match v with
               | JUndefined => None
               | _ => Some v
               end
          else None
      end
  end.

(** The properties of a raw record the profile mapper reads. *)
Definition mapper_keys : list string :=
  ["id"; "email"; "first_name"; "firstName"; "last_name"; "lastName";
   "role"; "status"; "avatar"; "phone"; "vendor"].

(** Two canonical users that differ at most in the vendor summary. *)
Definition same_profile (a b : User) : Prop :=
  id a = id b ∧ email a = email b ∧ firstName a = firstName b ∧
  lastName a = lastName b ∧ role a = role b ∧ status a = status b ∧
  avatar a = avatar b ∧ phone a = phone b ∧ name a = name b.

(** The backend after it has logged the given requests, oldest first. *)
Definition logged (reqs : list Request) (b : Backend) : Backend :=
  foldl (λ acc r, add_request r acc) b reqs.

(** Whether a request writes to the [users] table. *)
Definition is_update (r : Request) : bool :=
  match r with
  | ReqUpdateUser _ _ => true
  | _ => false
  end.

(** The four surfaces a present role can lead to. *)
Definition dashboards : list string :=
  ["/admin"; "/manager"; "/vendor"; "/customer"].

(** ** More concrete data *)

Module Sample2.

(** A profile row with a vendor, and the vendors table that goes with it. *)
Definition shop : jsval :=
  JObj [("id", JStr "v1"); ("shopname", JStr "Belle"); ("status", JStr "APPROVED")].

Definition with_shop : Backend :=
  {| be_signInWithPassword := Sample.answers;
     be_signOut := None;
     be_getUser := {| ur_user := Some (mkAuthUser "u1"); ur_error := None |};
     be_users := {["u1" := Sample.ana_row]};
     be_vendors := {["u1" := shop]};
     be_fault := None;
     be_requests := [] |}.

(** Ana as fetched from that backend, shop included. *)
Definition ana_with_shop : User :=
  mapDatabaseUserToUser (Client.embed_vendor with_shop (JStr "u1") Sample.ana_row).

Definition newcomer : RegisterData :=
  {| rd_email := "n@b.com"; rd_password := "secret";
     rd_firstName := "Nia"; rd_lastName := "Obi";
     rd_phone := None; rd_role := None |}.

(** Nobody is signed in: the provider answers without a user and with its
    session-missing error. *)
Definition no_session : Backend :=
  {| be_signInWithPassword := Sample.answers;
     be_signOut := None;
     be_getUser := {| ur_user := None;
                      ur_error := Some (Error "Auth session missing!") |};
     be_users := {["u1" := Sample.ana_row]};
     be_vendors := ∅;
     be_fault := None;
     be_requests := [] |}.

(** The account [u9] is signed in and has no profile row. *)
Definition orphan : Backend :=
  {| be_signInWithPassword := Sample.answers;
     be_signOut := None;
     be_getUser := {| ur_user := Some (mkAuthUser "u9"); ur_error := None |};
     be_users := {["u1" := Sample.ana_row]};
     be_vendors := ∅;
     be_fault := None;
     be_requests := [] |}.

(** The callback page as mounted, and a session whose metadata names no
    role. *)
Definition fresh_page : OAuthCallbackPage.Page :=
  {| OAuthCallbackPage.pg_status := "Processing OAuth callback...";
     OAuthCallbackPage.pg_error := None;
     OAuthCallbackPage.pg_effects := [] |}.

Definition plain_session : Outcome OAuthCallbackPage.SessionAnswer :=
  Returns {| OAuthCallbackPage.sa_session :=
               Some (OAuthCallbackPage.mkPageSession JUndefined);
             OAuthCallbackPage.sa_error := None |}.

(** A service that fails every call without giving a message. *)
Definition refusing : AuthService :=
  {| svc_signIn := λ _ _, mret (Failure None);
     svc_signOut := mret (Failure None);
     svc_getCurrentUser := mret (Failure None);
     svc_updateProfile := λ _ _, mret (Failure None) |}.

(** A platform that asks for e-mail confirmation and has no session. *)
Definition confirming : AccountService :=
  {| svc_signUp := λ _, mret (Success {| su_user := None; su_session := None |});
     svc_signInWithGoogle := mret (Success (mkOAuthData "https://accounts.example"));
     svc_getCurrentSession := mret (Success None);
     svc_resetPassword := λ _, mret (Success tt) |}.

(** A platform that cannot be reached. *)
Definition unreachable : AccountService :=
  {| svc_signUp := λ _, mret (Failure (Some "Failed to fetch"));
     svc_signInWithGoogle := mret (Failure None);
     svc_getCurrentSession := throw (Error "Failed to fetch");
     svc_resetPassword := λ _, mret (Failure (Some "Failed to fetch")) |}.

(** A platform with a live session. *)
Definition in_session : AccountService :=
  {| svc_signUp := λ _, mret (Success {| su_user := Some Sample.ana;
                                         su_session := Some (mkSession "t1") |});
     svc_signInWithGoogle := mret (Success (mkOAuthData "https://accounts.example"));
     svc_getCurrentSession := mret (Success (Some (mkSession "t1")));
     svc_resetPassword := λ _, mret (Success tt) |}.

(** An identity-provider profile with a three-word name, and the row its
    first sign-in inserts. *)
Definition google_user : OAuthUser :=
  {| ou_id := "g1"; ou_email := Some "ana@g.com";
     ou_full_name := Some "Ana Maria Lee"; ou_avatar_url := None |}.

Definition google_row : Row :=
  list_to_map (SupabaseAuthInserts.oauth_insert_body google_user).

(** The same with a one-word name. *)
Definition mononym : OAuthUser :=
  {| ou_id := "g2"; ou_email := None;
     ou_full_name := Some "Madonna"; ou_avatar_url := None |}.

Definition mononym_row : Row :=
  list_to_map (SupabaseAuthInserts.oauth_insert_body mononym).

(** The row [createUserProfile] inserts for the newcomer. *)
Definition newcomer_row : Row :=
  list_to_map (SupabaseAuthInserts.profile_insert_body "u5" newcomer).

End Sample2.

(** ** Proof support *)

(** Unfolds the control operators so that a run of a function becomes a
    nest of matches on the answers of the service and the backend. *)
Ltac run :=
  unfold setUser, setIsLoading, emit, await in *;
  unfold mbind, mret, M_bind, M_ret, try_finally, try_catch, throw, gets,
    modify, step in *;
  cbn in *.

(** The same for the methods of the service and the client calls below
    them. *)
Ltac service :=
  unfold SupabaseAuthService.signIn, SupabaseAuthService.signOut,
    SupabaseAuthService.getCurrentUser, SupabaseAuthService.updateProfile,
    Client.signInWithPassword, Client.signOut, Client.getUser,
    Client.select_user_maybeSingle, Client.update_user_single in *;
  run.

(** Membership of a given element in a list written out. *)
Ltac member :=
  repeat first [apply list_elem_of_here | apply list_elem_of_further].

(** ** Control operators *)

(** A [try] whose [catch] wraps the error in an envelope never throws: this
    is why no method of the service rejects. *)
Lemma try_catch_returns {S A : Type} (body : M S A) (h : exn → A) (s : S) :
  ∃ a, (try_catch body (λ e, mret (h e)) s).1 = Returns a.
Proof.
  unfold try_catch. destruct (body s) as [[a|e] s']; cbn; eauto.
Qed.

Lemma getCurrentUser_returns (b : Backend) :
  ∃ env, (SupabaseAuthService.getCurrentUser b).1 = Returns env.
Proof. apply try_catch_returns. Qed.

(** ** The profile mapper *)

(** The end-to-end example of the specification. *)
Example mapper_ana :
  mapDatabaseUserToUser Sample.ana_row =
    {| id := JStr "u1"; email := JStr "a@b.com";
       firstName := JStr "Ana"; lastName := JStr "Lee";
       role := JStr "VENDOR"; status := JStr "ACTIVE";
       avatar := JUndefined; phone := JUndefined; vendor := None;
       name := "Ana Lee" |}
  ∧ SupabaseAuthProvider.getDashboardPath None (role Sample.ana) = "/vendor".
Proof. split; vm_compute; reflexivity. Qed.

(** Where both names are truthy, the dual read does not see the difference
    between the two conventions. *)
Lemma mapper_dual_read_truthy (snake camel : Row) (f l : jsval) :
  truthy f = true → truthy l = true →
  snake_only snake f l → camel_only camel f l → agree_elsewhere snake camel →
  mapDatabaseUserToUser snake = mapDatabaseUserToUser camel.
Proof.
  intros Hf Hl (Hs1 & Hs2 & Hs3 & Hs4) (Hc1 & Hc2 & Hc3 & Hc4) Hrest.
  assert (Hfield : ∀ k, k ∉ name_keys → field snake k = field camel k).
  { intros k Hk. unfold field. by rewrite (Hrest k Hk). }
  unfold mapDatabaseUserToUser.
  rewrite !(Hfield "id"), !(Hfield "email"), !(Hfield "role"), !(Hfield "status"),
    !(Hfield "avatar"), !(Hfield "phone"), !(Hfield "vendor")
    by (unfold name_keys; rewrite !not_elem_of_cons; split_and!; try discriminate;
        apply not_elem_of_nil).
  unfold field. rewrite Hs1, Hs2, Hs3, Hs4, Hc1, Hc2, Hc3, Hc4. cbn.
  unfold js_or. rewrite Hf, Hl. destruct f, l; try discriminate; reflexivity.
Qed.

(** C5. The profile mapper does not give the same output for the two naming
    conventions when a name is the empty string: on the row that
    [handleOAuthCallback] itself inserts (snake case, [last_name: '']) it
    yields [lastName: undefined] and the display name ["User undefined"],
    while on the camel-case twin it yields [lastName: ''] and ["User "]. *)
Theorem mapper_empty_last_name :
  snake_only Sample.snake_row (JStr "User") (JStr EmptyString) ∧
  camel_only Sample.camel_row (JStr "User") (JStr EmptyString) ∧
  agree_elsewhere Sample.snake_row Sample.camel_row ∧
  lastName (mapDatabaseUserToUser Sample.snake_row) = JUndefined ∧
  name (mapDatabaseUserToUser Sample.snake_row) = "User undefined" ∧
  lastName (mapDatabaseUserToUser Sample.camel_row) = JStr EmptyString ∧
  name (mapDatabaseUserToUser Sample.camel_row) = "User " ∧
  mapDatabaseUserToUser Sample.snake_row ≠ mapDatabaseUserToUser Sample.camel_row.
Proof.
  split_and!; try (vm_compute; reflexivity).
  - repeat split; vm_compute; reflexivity.
  - repeat split; vm_compute; reflexivity.
  - intros k Hk. unfold name_keys in Hk.
    rewrite !not_elem_of_cons in Hk. destruct Hk as (H1 & H2 & H3 & H4 & _).
    unfold Sample.snake_row, Sample.camel_row.
    rewrite !lookup_insert. repeat case_decide; congruence.
  - intros H. apply (f_equal lastName) in H. vm_compute in H. discriminate.
Qed.

(** ** The role router *)

Lemma truthy_present (r : string) : r ≠ EmptyString → truthy (JStr r) = true.
Proof. intros H. cbn. by destruct (decide (r = EmptyString)). Qed.

Lemma getDashboardPath_present (current : option User) (r : string) :
  r ≠ EmptyString →
  SupabaseAuthProvider.getDashboardPath current (JStr r) = role_table r.
Proof.
  intros H. unfold SupabaseAuthProvider.getDashboardPath, js_or, role_table.
  rewrite (truthy_present r H), (truthy_present r H). cbn.
  repeat case_bool_decide; repeat case_decide; congruence.
Qed.

(** With no argument the resolver reads the role of the current user. *)
Lemma getDashboardPath_fallback (u : User) :
  SupabaseAuthProvider.getDashboardPath (Some u) JUndefined =
  SupabaseAuthProvider.getDashboardPath None (role u).
Proof.
  unfold SupabaseAuthProvider.getDashboardPath, js_or. cbn.
  destruct (truthy (role u)) eqn:E; cbn; by rewrite ?E.
Qed.

(** An empty role string counts as absent: the resolver falls back to the
    current user, and to the root without one. *)
Example getDashboardPath_empty :
  SupabaseAuthProvider.getDashboardPath None (JStr EmptyString) = "/" ∧
  SupabaseAuthProvider.getDashboardPath (Some Sample.ana) (JStr EmptyString) = "/vendor".
Proof. split; vm_compute; reflexivity. Qed.

(** C2. The resolver maps ADMIN, MANAGER, VENDOR and CUSTOMER to their
    surfaces and every other present role string to the customer surface,
    whatever the current user is; an absent role without a current user
    goes to the root; and [redirectToDashboard] navigates, without touching
    anything else, to the resolver's destination for the role of the
    installed user. A role is present when it passes the code's own test
    [!role], that is, when it is not the empty string. *)
Theorem role_router_table (current : option User) (r : string) (w : World) :
  r ≠ EmptyString →
  SupabaseAuthProvider.getDashboardPath current (JStr "ADMIN") = "/admin" ∧
  SupabaseAuthProvider.getDashboardPath current (JStr "MANAGER") = "/manager" ∧
  SupabaseAuthProvider.getDashboardPath current (JStr "VENDOR") = "/vendor" ∧
  SupabaseAuthProvider.getDashboardPath current (JStr "CUSTOMER") = "/customer" ∧
  (r ∉ ["ADMIN"; "MANAGER"; "VENDOR"] →
   SupabaseAuthProvider.getDashboardPath current (JStr r) = "/customer") ∧
  SupabaseAuthProvider.getDashboardPath current (JStr r) = role_table r ∧
  SupabaseAuthProvider.getDashboardPath None JUndefined = "/" ∧
  SupabaseAuthProvider.getDashboardPath None JNull = "/" ∧
  SupabaseAuthProvider.redirectToDashboard w =
    (Returns tt,
     {| user := user w; isLoading := isLoading w;
        effects := effects w ++
          [Navigate (SupabaseAuthProvider.getDashboardPath None
                       (from_option role JUndefined (user w)))];
        backend := backend w |}).
Proof.
  intros H. repeat split; try reflexivity.
  - intros Hr. rewrite getDashboardPath_present by done. unfold role_table.
    rewrite !not_elem_of_cons in Hr. destruct Hr as (H1 & H2 & H3 & _).
    repeat case_decide; congruence.
  - by apply getDashboardPath_present.
  - unfold SupabaseAuthProvider.redirectToDashboard. run.
    destruct (user w) as [u|]; cbn; [|done].
    by rewrite getDashboardPath_fallback.
Qed.

(** An unrecognised role and Ana, a vendor, as the installed user. *)
Lemma role_router_table_witness :
  SupabaseAuthProvider.getDashboardPath None (JStr "GUEST") = "/customer" ∧
  SupabaseAuthProvider.redirectToDashboard
    (Sample.world (Some Sample.ana) false Sample.online) =
    (Returns tt,
     {| user := Some Sample.ana; isLoading := false;
        effects := [Navigate "/vendor"]; backend := Sample.online |}).
Proof.
  assert (Hr : "GUEST" ≠ EmptyString) by discriminate.
  destruct (role_router_table None "GUEST"
              (Sample.world (Some Sample.ana) false Sample.online) Hr)
    as (_ & _ & _ & _ & Hother & _ & _ & _ & Hredirect).
  split.
  - apply Hother. rewrite !not_elem_of_cons.
    split_and!; try discriminate. apply not_elem_of_nil.
  - rewrite Hredirect. reflexivity.
Defined.

(** ** The service *)

(** A successful sign-in carries the mapped profile row. *)
Lemma signIn_found email password b authUser session row :
  be_signInWithPassword b email password =
    {| ar_user := Some authUser; ar_session := Some session; ar_error := None |} →
  be_fault b = None →
  be_users b !! au_id authUser = Some row →
  (SupabaseAuthService.signIn email password b).1 =
    Returns (Success
      {| sd_user := mapDatabaseUserToUser
                      (Client.embed_vendor b (JStr (au_id authUser)) row);
         sd_session := session |}).
Proof.
  intros Hauth Hfault Hrow.
  unfold SupabaseAuthService.signIn, Client.signInWithPassword,
    Client.select_user_maybeSingle. run.
  rewrite Hauth. cbn. rewrite Hfault. cbn. rewrite Hrow. reflexivity.
Qed.

(** C7. When the provider accepts the credentials and the [users] table has
    no row for the authenticated id, the zero-row query answers without an
    error and [signIn] resolves to the failure envelope with the message
    'User profile not found'. *)
Theorem signIn_profile_not_found email password b authUser session :
  be_signInWithPassword b email password =
    {| ar_user := Some authUser; ar_session := Some session; ar_error := None |} →
  be_fault b = None →
  be_users b !! au_id authUser = None →
  (Client.select_user_maybeSingle (JStr (au_id authUser)) b).1 =
    Returns {| q_data := None; q_error := None |} ∧
  (SupabaseAuthService.signIn email password b).1 =
    Returns (Failure (Some "User profile not found")).
Proof.
  intros Hauth Hfault Hrow.
  unfold SupabaseAuthService.signIn, Client.signInWithPassword,
    Client.select_user_maybeSingle. run.
  rewrite Hauth. cbn. rewrite Hfault. cbn. rewrite Hrow. split; reflexivity.
Qed.

(** The account [u9] signs in but has no profile row. *)
Lemma signIn_profile_not_found_witness :
  (SupabaseAuthService.signIn "n@b.com" "secret" Sample.online).1 =
    Returns (Failure (Some "User profile not found")).
Proof.
  apply (signIn_profile_not_found "n@b.com" "secret" Sample.online
           (mkAuthUser "u9") (mkSession "t9")); reflexivity.
Defined.

(** C8, as stated, fails: when nobody is signed in the provider reports no
    user together with its session-missing error, [getCurrentUser] throws
    that error before it looks at the user, and the envelope is a failure. *)
Lemma getCurrentUser_no_session_fails :
  ur_user (be_getUser Sample2.no_session) = None ∧
  (SupabaseAuthService.getCurrentUser Sample2.no_session).1 =
    Returns (Failure (Some "Auth session missing!")) ∧
  ¬ (ur_user (be_getUser Sample2.no_session) = None →
     (SupabaseAuthService.getCurrentUser Sample2.no_session).1 =
       Returns (Success None)).
Proof.
  split_and!; [reflexivity | reflexivity |].
  intros H. specialize (H eq_refl). vm_compute in H. discriminate.
Qed.

(** C8, amended. When the provider's answer carries an error,
    [getCurrentUser] resolves to a failure envelope with that error's
    message, whether or not a user is reported. When the answer carries no
    error, it resolves to a success envelope with a null payload if no user
    is reported, and also if a user is reported whose profile row is missing
    from the [users] table. *)
Theorem getCurrentUser_without_user (b : Backend) :
  (∀ err, ur_error (be_getUser b) = Some err →
     (SupabaseAuthService.getCurrentUser b).1 =
       Returns (Failure (Some (message err)))) ∧
  (ur_error (be_getUser b) = None →
   (ur_user (be_getUser b) = None ∨
    ∃ authUser, ur_user (be_getUser b) = Some authUser ∧
                be_fault b = None ∧ be_users b !! au_id authUser = None) →
   (SupabaseAuthService.getCurrentUser b).1 = Returns (Success None)).
Proof.
  split.
  - intros err Herr.
    unfold SupabaseAuthService.getCurrentUser, Client.getUser. run.
    rewrite Herr. reflexivity.
  - intros Herr Hcase.
    unfold SupabaseAuthService.getCurrentUser, Client.getUser,
      Client.select_user_maybeSingle. run.
    rewrite Herr. destruct Hcase as [Hnone | (authUser & Hsome & Hfault & Hrow)].
    + rewrite Hnone. reflexivity.
    + rewrite Hsome. cbn. rewrite Hfault. cbn. rewrite Hrow. reflexivity.
Qed.

(** Nobody signed in, and an account without a profile row. *)
Lemma getCurrentUser_without_user_witness :
  (SupabaseAuthService.getCurrentUser Sample2.no_session).1 =
    Returns (Failure (Some "Auth session missing!")) ∧
  (SupabaseAuthService.getCurrentUser Sample2.orphan).1 = Returns (Success None).
Proof.
  split.
  - apply (proj1 (getCurrentUser_without_user Sample2.no_session)
             (Error "Auth session missing!")).
    reflexivity.
  - apply (proj2 (getCurrentUser_without_user Sample2.orphan)); [reflexivity|].
    right. exists (mkAuthUser "u9"). split_and!; reflexivity.
Defined.

(** The table writes the columns named in the body and no other. *)
Lemma apply_patch_other (patch : list (string * jsval)) (row : Row) (col : string) :
  col ∉ patch.*1 → Client.apply_patch patch row !! col = row !! col.
Proof.
  revert row. induction patch as [|[k v] patch IH]; intros row Hcol; [done|].
  cbn in Hcol. apply not_elem_of_cons in Hcol as [Hne Hcol].
  unfold Client.apply_patch in *. cbn. rewrite IH by done.
  destruct v; rewrite ?lookup_insert_ne; done.
Qed.

Lemma update_row_frame patch idv b key col :
  col ∉ patch.*1 →
  (be_users (Client.update_row patch idv b).2 !! key) ≫= (.!! col)
    = (be_users b !! key) ≫= (.!! col) ∧
  dom (be_users (Client.update_row patch idv b).2) = dom (be_users b) ∧
  be_vendors (Client.update_row patch idv b).2 = be_vendors b.
Proof.
  intros Hcol. unfold Client.update_row.
  destruct (be_fault b); [done|].
  destruct idv as [| | |k|]; try done.
  destruct (be_users b !! k) as [row|] eqn:Hrow; [|done]. cbn.
  split_and!; [| |done].
  - destruct (decide (k = key)) as [->|Hne].
    + rewrite lookup_insert_eq, Hrow. cbn. by apply apply_patch_other.
    + by rewrite lookup_insert_ne.
  - apply elem_of_dom_2 in Hrow. rewrite dom_insert_L.
    apply set_eq. intros x. rewrite elem_of_union, elem_of_singleton.
    split; [intros [->|]; done | by right].
Qed.

(** C9. Whatever the [updates] argument holds, [updateProfile] sends a body
    with exactly the keys [first_name], [last_name], [phone] and [avatar],
    and afterwards every other column of every row of [users] (so [id],
    [email], [role] and [status]) reads as before, no row has appeared or
    gone, and the vendor association is untouched. *)
Theorem updateProfile_frame userId updates b key col :
  col ∉ profile_columns →
  (SupabaseAuthService.update_body updates).*1 = profile_columns ∧
  (be_users (SupabaseAuthService.updateProfile userId updates b).2 !! key)
    ≫= (.!! col) = (be_users b !! key) ≫= (.!! col) ∧
  dom (be_users (SupabaseAuthService.updateProfile userId updates b).2)
    = dom (be_users b) ∧
  be_vendors (SupabaseAuthService.updateProfile userId updates b).2 = be_vendors b.
Proof.
  intros Hcol. split; [reflexivity|].
  pose proof (update_row_frame (SupabaseAuthService.update_body updates) userId
                (add_request
                   (ReqUpdateUser userId (SupabaseAuthService.update_body updates)) b)
                key col Hcol) as H.
  unfold SupabaseAuthService.updateProfile, Client.update_user_single. run.
  destruct (Client.update_row _ _ _) as [[[data|] [error|]] b']; cbn in *; exact H.
Qed.

(** An update that asks for a new role leaves Ana's role alone. *)
Lemma updateProfile_frame_witness :
  (be_users (SupabaseAuthService.updateProfile (JStr "u1") Sample.greedy_updates
               Sample.online).2 !! "u1") ≫= (.!! "role")
  = Some (JStr "VENDOR").
Proof.
  assert (Hcol : "role" ∉ profile_columns).
  { unfold profile_columns. rewrite !not_elem_of_cons.
    split_and!; try discriminate. apply not_elem_of_nil. }
  destruct (updateProfile_frame (JStr "u1") Sample.greedy_updates Sample.online
              "u1" "role" Hcol) as (_ & Hframe & _).
  rewrite Hframe. reflexivity.
Defined.

(** The same update does write the first name. *)
Example updateProfile_writes_first_name :
  (be_users (SupabaseAuthService.updateProfile (JStr "u1") Sample.greedy_updates
               Sample.online).2 !! "u1") ≫= (.!! "first_name")
  = Some (JStr "Anna").
Proof. vm_compute. reflexivity. Qed.

(** ** The provider component *)

(** What [logout] does, by the outcome of the sign-out request. *)
Lemma logout_run auth w :
  isLoading (SupabaseAuthProvider.logout auth w).2 = false ∧
  match svc_signOut auth (backend w) with
  | (Returns (Success _), _) =>
      (SupabaseAuthProvider.logout auth w).1 = Returns tt ∧
      user (SupabaseAuthProvider.logout auth w).2 = None
  | (Returns (Failure error), _) =>
      (SupabaseAuthProvider.logout auth w).1 =
        Throws (Error (default "Logout failed" error)) ∧
      user (SupabaseAuthProvider.logout auth w).2 = user w
  | (Throws err, _) =>
      (SupabaseAuthProvider.logout auth w).1 = Throws err ∧
      user (SupabaseAuthProvider.logout auth w).2 = user w
  end.
Proof.
  unfold SupabaseAuthProvider.logout. run.
  destruct (svc_signOut auth (backend w)) as [[[[]|msg]|err] b]; cbn; auto.
Qed.

(** C1, as stated, fails: with Ana installed and the backend out of reach,
    [logout] raises and Ana is still the local user. *)
Lemma logout_failure_keeps_user :
  ¬ (user (SupabaseAuthProvider.logout supabaseAuth
             (Sample.world (Some Sample.ana) false Sample.offline)).2 = None ∧
     isLoading (SupabaseAuthProvider.logout supabaseAuth
             (Sample.world (Some Sample.ana) false Sample.offline)).2 = false).
Proof. intros [H _]. vm_compute in H. discriminate. Qed.

(** C1, amended. After [logout] the loading flag is false on every path.
    The local user is absent when the sign-out request succeeded, in which
    case [logout] returns; when the request failed or threw, [logout]
    raises and the local user is the one installed before the call. *)
Theorem logout_spec (auth : AuthService) (w : World) (r : Outcome (Envelope unit))
    (b : Backend) :
  svc_signOut auth (backend w) = (r, b) →
  isLoading (SupabaseAuthProvider.logout auth w).2 = false ∧
  ((∃ data, r = Returns (Success data)) →
   (SupabaseAuthProvider.logout auth w).1 = Returns tt ∧
   user (SupabaseAuthProvider.logout auth w).2 = None) ∧
  ((∀ data, r ≠ Returns (Success data)) →
   (∃ err, (SupabaseAuthProvider.logout auth w).1 = Throws err) ∧
   user (SupabaseAuthProvider.logout auth w).2 = user w).
Proof.
  intros Hout. pose proof (logout_run auth w) as [Hload Hrun].
  rewrite Hout in Hrun. split; [done|]. split.
  - intros [data ->]. done.
  - intros Hfail. destruct r as [[data|error]|err].
    + by destruct (Hfail data).
    + destruct Hrun as [-> ->]. eauto.
    + destruct Hrun as [-> ->]. eauto.
Qed.

(** Sign-out succeeds and Ana is cleared; it fails and she stays. *)
Lemma logout_spec_witness :
  user (SupabaseAuthProvider.logout supabaseAuth
          (Sample.world (Some Sample.ana) true Sample.online)).2 = None ∧
  user (SupabaseAuthProvider.logout supabaseAuth
          (Sample.world (Some Sample.ana) true Sample.offline)).2 = Some Sample.ana.
Proof.
  split.
  - refine (proj2 (proj1 (proj2 (logout_spec supabaseAuth
              (Sample.world (Some Sample.ana) true Sample.online)
              (Returns (Success tt)) (add_request ReqSignOut Sample.online)
              eq_refl)) _)).
    exists tt. reflexivity.
  - refine (proj2 (proj2 (proj2 (logout_spec supabaseAuth
              (Sample.world (Some Sample.ana) true Sample.offline)
              (Returns (Failure (Some "Failed to fetch")))
              (add_request ReqSignOut Sample.offline)
              eq_refl)) _)).
    intros data. discriminate.
Defined.

(** C3. Called with no local user, [updateProfile] raises 'No user logged
    in' and leaves the whole world as it was: the user, the loading flag,
    the effects, and the backend with its log of requests. *)
Theorem updateProfile_no_user (auth : AuthService) (updates : gmap string jsval)
    (w : World) :
  user w = None →
  SupabaseAuthProvider.updateProfile auth updates w =
    (Throws (Error "No user logged in"), w) ∧
  be_requests (backend (SupabaseAuthProvider.updateProfile auth updates w).2) =
    be_requests (backend w).
Proof.
  intros H. unfold SupabaseAuthProvider.updateProfile. run. rewrite H.
  split; reflexivity.
Qed.

Lemma updateProfile_no_user_witness :
  SupabaseAuthProvider.updateProfile supabaseAuth Sample.greedy_updates
    (Sample.world None false Sample.online) =
  (Throws (Error "No user logged in"), Sample.world None false Sample.online).
Proof.
  apply (updateProfile_no_user supabaseAuth Sample.greedy_updates
           (Sample.world None false Sample.online)).
  reflexivity.
Defined.

(** What [login] does, by the outcome of the sign-in call. *)
Lemma login_run auth email password w :
  isLoading (SupabaseAuthProvider.login auth email password w).2 = false ∧
  match svc_signIn auth email password (backend w) with
  | (Returns (Success data), _) =>
      (SupabaseAuthProvider.login auth email password w).1 = Returns tt ∧
      user (SupabaseAuthProvider.login auth email password w).2 = Some (sd_user data)
  | (Returns (Failure error), _) =>
      (SupabaseAuthProvider.login auth email password w).1 =
        Throws (Error (default "Login failed" error)) ∧
      user (SupabaseAuthProvider.login auth email password w).2 = user w
  | (Throws err, _) =>
      (SupabaseAuthProvider.login auth email password w).1 = Throws err ∧
      user (SupabaseAuthProvider.login auth email password w).2 = user w
  end.
Proof.
  unfold SupabaseAuthProvider.login. run.
  destruct (svc_signIn auth email password (backend w)) as [[[data|error]|err] b];
    cbn; auto.
Qed.

(** C4. On every exit of [login] the loading flag is false; when the sign-in
    call resolves to a success, [login] returns and the local user is the
    user of its payload; and with the service of this repository, when the
    provider accepts the credentials and the profile row is there, that user
    is the mapped profile row. *)
Theorem login_spec :
  (∀ auth email password w,
     isLoading (SupabaseAuthProvider.login auth email password w).2 = false ∧
     ∀ data b,
       svc_signIn auth email password (backend w) = (Returns (Success data), b) →
       (SupabaseAuthProvider.login auth email password w).1 = Returns tt ∧
       user (SupabaseAuthProvider.login auth email password w).2 =
         Some (sd_user data)) ∧
  (∀ email password w authUser session row,
     be_signInWithPassword (backend w) email password =
       {| ar_user := Some authUser; ar_session := Some session;
          ar_error := None |} →
     be_fault (backend w) = None →
     be_users (backend w) !! au_id authUser = Some row →
     (SupabaseAuthProvider.login supabaseAuth email password w).1 = Returns tt ∧
     user (SupabaseAuthProvider.login supabaseAuth email password w).2 =
       Some (mapDatabaseUserToUser
               (Client.embed_vendor (backend w) (JStr (au_id authUser)) row)) ∧
     isLoading (SupabaseAuthProvider.login supabaseAuth email password w).2 = false).
Proof.
  split.
  - intros auth email password w.
    pose proof (login_run auth email password w) as [Hload Hrun].
    split; [done|]. intros data b Hout. by rewrite Hout in Hrun.
  - intros email password w authUser session row Hauth Hfault Hrow.
    pose proof (login_run supabaseAuth email password w) as [Hload Hrun].
    pose proof (signIn_found email password (backend w) authUser session row
                  Hauth Hfault Hrow) as Hin.
    cbn in Hrun.
    destruct (SupabaseAuthService.signIn email password (backend w)) as [o b].
    cbn in Hin. subst o. destruct Hrun as [Hret Huser]. done.
Qed.

(** Ana logs in on a fresh page. *)
Lemma login_spec_witness :
  (SupabaseAuthProvider.login supabaseAuth "a@b.com" "secret"
     (Sample.world None true Sample.online)).1 = Returns tt ∧
  user (SupabaseAuthProvider.login supabaseAuth "a@b.com" "secret"
          (Sample.world None true Sample.online)).2 =
    Some (mapDatabaseUserToUser
            (Client.embed_vendor Sample.online (JStr "u1") Sample.ana_row)) ∧
  isLoading (SupabaseAuthProvider.login supabaseAuth "a@b.com" "secret"
               (Sample.world None true Sample.online)).2 = false.
Proof.
  apply (proj2 login_spec "a@b.com" "secret" (Sample.world None true Sample.online)
           (mkAuthUser "u1") (mkSession "t1") Sample.ana_row); reflexivity.
Defined.

(** The two fetching rows of the listener, on the service of this
    repository: the fetch never rejects. *)
Lemma fetch_and_install_run (w : World) :
  (SupabaseAuthProvider.fetch_and_install supabaseAuth w).1 = Returns tt ∧
  isLoading (SupabaseAuthProvider.fetch_and_install supabaseAuth w).2 = isLoading w ∧
  user (SupabaseAuthProvider.fetch_and_install supabaseAuth w).2 =
    match (SupabaseAuthService.getCurrentUser (backend w)).1 with
    | Returns (Success (Some data)) => Some data
    | _ => user w
    end ∧
  backend (SupabaseAuthProvider.fetch_and_install supabaseAuth w).2 =
    (SupabaseAuthService.getCurrentUser (backend w)).2.
Proof.
  destruct (getCurrentUser_returns (backend w)) as [env Henv].
  unfold SupabaseAuthProvider.fetch_and_install. run.
  destruct (SupabaseAuthService.getCurrentUser (backend w)) as [o b].
  cbn in Henv. subst o. destruct env as [[data|]|error]; cbn; auto.
Qed.

(** C6. The listener returns on every event with the loading flag false, and
    the local user follows the four-way table: a signed-in or
    token-refreshed event with a session fetches the canonical user (one
    call of [getCurrentUser]) and installs it when the fetch yields one, a
    signed-out event clears the user, and every other event leaves the user
    and the backend alone. *)
Theorem push_event_table (event : string) (session : option Session) (w : World) :
  (SupabaseAuthProvider.onAuthStateChange supabaseAuth event session w).1
    = Returns tt ∧
  isLoading (SupabaseAuthProvider.onAuthStateChange supabaseAuth event session w).2
    = false ∧
  user (SupabaseAuthProvider.onAuthStateChange supabaseAuth event session w).2 =
    push_table (classify event session)
      (SupabaseAuthService.getCurrentUser (backend w)).1 (user w) ∧
  backend (SupabaseAuthProvider.onAuthStateChange supabaseAuth event session w).2 =
    match classify event session with
    | SignedIn | TokenRefreshed => (SupabaseAuthService.getCurrentUser (backend w)).2
    | SignedOut | OtherEvent => backend w
    end.
Proof.
  unfold SupabaseAuthProvider.onAuthStateChange, classify, push_table.
  set (w1 := {| user := user w; isLoading := isLoading w;
                effects := effects w ++ [ConsoleLog "Auth state changed:"];
                backend := backend w |}).
  pose proof (fetch_and_install_run w1) as (Hret & _ & Huser & Hbackend).
  assert (Hs : ∀ s : Session, bool_decide (is_Some (Some s)) = true)
    by (intros; apply bool_decide_eq_true_2; eauto).
  assert (Hn : bool_decide (is_Some (@None Session)) = false)
    by (apply bool_decide_eq_false_2; apply is_Some_None).
  destruct session as [s|]; rewrite ?Hs, ?Hn, ?andb_true_r, ?andb_false_r;
    repeat case_bool_decide; repeat case_decide; try congruence; run; fold w1;
    try (destruct (SupabaseAuthProvider.fetch_and_install supabaseAuth w1) as [o w2];
         cbn in *; subst o);
    auto.
Qed.

(** The table at work: a sign-in event installs Ana, a sign-out event clears
    her, and a sign-in event without a session changes nothing. *)
Example push_event_runs :
  user (SupabaseAuthProvider.onAuthStateChange supabaseAuth "SIGNED_IN"
          (Some (mkSession "t1")) (Sample.world None true Sample.online)).2
    = Some Sample.ana ∧
  user (SupabaseAuthProvider.onAuthStateChange supabaseAuth "SIGNED_OUT" None
          (Sample.world (Some Sample.ana) true Sample.online)).2 = None ∧
  user (SupabaseAuthProvider.onAuthStateChange supabaseAuth "SIGNED_IN" None
          (Sample.world None true Sample.online)).2 = None.
Proof. split_and!; vm_compute; reflexivity. Qed.

(** C10. After [refreshToken] the local user is the fetched user when the
    fetch resolves to a success with data, and absent in every other
    outcome; when the fetch throws, the user is cleared and the same error
    is raised again. *)
Theorem refreshToken_spec (auth : AuthService) (w : World) :
  match svc_getCurrentUser auth (backend w) with
  | (Returns (Success (Some data)), _) =>
      (SupabaseAuthProvider.refreshToken auth w).1 = Returns tt ∧
      user (SupabaseAuthProvider.refreshToken auth w).2 = Some data
  | (Returns _, _) =>
      (SupabaseAuthProvider.refreshToken auth w).1 = Returns tt ∧
      user (SupabaseAuthProvider.refreshToken auth w).2 = None
  | (Throws err, _) =>
      (SupabaseAuthProvider.refreshToken auth w).1 = Throws err ∧
      user (SupabaseAuthProvider.refreshToken auth w).2 = None
  end.
Proof.
  unfold SupabaseAuthProvider.refreshToken. run.
  destruct (svc_getCurrentUser auth (backend w)) as [[[[u|]|msg]|err] b];
    cbn; auto.
Qed.

(** A fetch that rejects while Ana is installed. *)
Lemma refreshToken_spec_witness :
  (SupabaseAuthProvider.refreshToken Sample.rejecting
     (Sample.world (Some Sample.ana) false Sample.offline)).1 =
    Throws (Error "Failed to fetch") ∧
  user (SupabaseAuthProvider.refreshToken Sample.rejecting
          (Sample.world (Some Sample.ana) false Sample.offline)).2 = None.
Proof.
  exact (refreshToken_spec Sample.rejecting
           (Sample.world (Some Sample.ana) false Sample.offline)).
Defined.

(** * Further properties of the service and the provider *)

Import SupabaseAuthProvider SupabaseAuthAccount SupabaseAuthInserts.

(** ** The service: what never happens *)

(** X1. No method of the service rejects: sign-in, sign-out, the fetch of
    the current user and the profile update always resolve to an envelope,
    whatever the backend answers. *)
Theorem service_never_rejects (b : Backend) (email password : string)
    (userId : jsval) (updates : gmap string jsval) :
  (∃ env, (SupabaseAuthService.signIn email password b).1 = Returns env) ∧
  (∃ env, (SupabaseAuthService.signOut b).1 = Returns env) ∧
  (∃ env, (SupabaseAuthService.getCurrentUser b).1 = Returns env) ∧
  (∃ env, (SupabaseAuthService.updateProfile userId updates b).1 = Returns env).
Proof. split_and!; apply try_catch_returns. Qed.

(** Logging requests changes nothing else of the backend. *)
Lemma logged_frame (reqs : list Request) (b : Backend) :
  be_signInWithPassword (logged reqs b) = be_signInWithPassword b ∧
  be_signOut (logged reqs b) = be_signOut b ∧
  be_getUser (logged reqs b) = be_getUser b ∧
  be_users (logged reqs b) = be_users b ∧
  be_vendors (logged reqs b) = be_vendors b ∧
  be_fault (logged reqs b) = be_fault b.
Proof.
  revert b. induction reqs as [|r reqs IH]; intros b; [done|].
  change (logged (r :: reqs) b) with (logged reqs (add_request r b)).
  destruct (IH (add_request r b)) as (-> & -> & -> & -> & -> & ->). done.
Qed.

Lemma logged_short (b : Backend) :
  (∀ r, ∃ reqs, logged [r] b = logged reqs b ∧ (List.length reqs ≤ 2)%nat) ∧
  (∀ r r', ∃ reqs, logged [r; r'] b = logged reqs b ∧ (List.length reqs ≤ 2)%nat).
Proof.
  split; [intros r; exists [r] | intros r r'; exists [r; r']];
    (split; [done | cbn; lia]).
Qed.

Lemma signIn_logs (b : Backend) (email password : string) :
  ∃ reqs, (SupabaseAuthService.signIn email password b).2 = logged reqs b ∧
          (List.length reqs ≤ 2)%nat.
Proof.
  destruct (logged_short b) as [H1 H2]. service.
  destruct (be_signInWithPassword b email password) as [[au|] [s|] [e|]]; cbn;
    try apply H1.
  destruct (be_fault b); cbn; try apply H2.
  destruct (be_users b !! au_id au); cbn; apply H2.
Qed.

Lemma getCurrentUser_logs (b : Backend) :
  ∃ reqs, (SupabaseAuthService.getCurrentUser b).2 = logged reqs b ∧
          (List.length reqs ≤ 2)%nat.
Proof.
  destruct (logged_short b) as [H1 H2]. service.
  destruct (be_getUser b) as [[au|] [e|]]; cbn; try apply H1.
  destruct (be_fault b); cbn; try apply H2.
  destruct (be_users b !! au_id au); cbn; apply H2.
Qed.

Lemma logged_requests (reqs : list Request) (b : Backend) :
  be_requests (logged reqs b) = (be_requests b ++ reqs)%list.
Proof.
  revert b. induction reqs as [|r reqs IH]; intros b.
  - cbn. by rewrite app_nil_r.
  - change (logged (r :: reqs) b) with (logged reqs (add_request r b)).
    rewrite IH. cbn. by rewrite <- app_assoc.
Qed.

Lemma logged_reads (b : Backend) :
  (∀ r, is_update r = false →
     ∃ reqs, logged [r] b = logged reqs b ∧ (List.length reqs ≤ 2)%nat ∧
             Forall (λ q, is_update q = false) reqs) ∧
  (∀ r r', is_update r = false → is_update r' = false →
     ∃ reqs, logged [r; r'] b = logged reqs b ∧ (List.length reqs ≤ 2)%nat ∧
             Forall (λ q, is_update q = false) reqs).
Proof.
  split; [intros r Hr; exists [r] | intros r r' Hr Hr'; exists [r; r']];
    (split_and!; [done | cbn; lia | by repeat constructor]).
Qed.

Lemma signIn_sends_reads (b : Backend) (email password : string) :
  ∃ reqs, (SupabaseAuthService.signIn email password b).2 = logged reqs b ∧
          (List.length reqs ≤ 2)%nat ∧ Forall (λ q, is_update q = false) reqs.
Proof.
  destruct (logged_reads b) as [H1 H2]. service.
  destruct (be_signInWithPassword b email password) as [[au|] [s|] [e|]]; cbn;
    try (by apply H1).
  destruct (be_fault b); cbn; try (by apply H2).
  destruct (be_users b !! au_id au); cbn; by apply H2.
Qed.

Lemma getCurrentUser_sends_reads (b : Backend) :
  ∃ reqs, (SupabaseAuthService.getCurrentUser b).2 = logged reqs b ∧
          (List.length reqs ≤ 2)%nat ∧ Forall (λ q, is_update q = false) reqs.
Proof.
  destruct (logged_reads b) as [H1 H2]. service.
  destruct (be_getUser b) as [[au|] [e|]]; cbn; try (by apply H1).
  destruct (be_fault b); cbn; try (by apply H2).
  destruct (be_users b !! au_id au); cbn; by apply H2.
Qed.

(** X2. Sign-in, sign-out and the fetch of the current user send no update
    to the tables: each adds at most two requests to the log (sign-out
    exactly one, the sign-out itself), none of them an update, and the rows
    of [users] and [vendors] are those found. Nothing is said here of the
    provider's own session. *)
Theorem reads_send_no_update (b : Backend) (email password : string) :
  let sent_reads (b' : Backend) :=
    ∃ reqs, be_requests b' = (be_requests b ++ reqs)%list ∧
            (List.length reqs ≤ 2)%nat ∧
            Forall (λ q, is_update q = false) reqs in
  let same_tables (b' : Backend) :=
    be_users b' = be_users b ∧ be_vendors b' = be_vendors b in
  (sent_reads (SupabaseAuthService.signIn email password b).2 ∧
   same_tables (SupabaseAuthService.signIn email password b).2) ∧
  (be_requests (SupabaseAuthService.signOut b).2 =
     (be_requests b ++ [ReqSignOut])%list ∧
   same_tables (SupabaseAuthService.signOut b).2) ∧
  (sent_reads (SupabaseAuthService.getCurrentUser b).2 ∧
   same_tables (SupabaseAuthService.getCurrentUser b).2).
Proof.
  cbv zeta.
  destruct (signIn_sends_reads b email password) as (r1 & H1 & L1 & F1).
  destruct (getCurrentUser_sends_reads b) as (r2 & H2 & L2 & F2).
  split_and!.
  - exists r1. by rewrite H1, logged_requests.
  - rewrite H1. apply logged_frame.
  - rewrite H1. apply logged_frame.
  - service. by destruct (be_signOut b).
  - service. by destruct (be_signOut b).
  - service. by destruct (be_signOut b).
  - exists r2. by rewrite H2, logged_requests.
  - rewrite H2. apply logged_frame.
  - rewrite H2. apply logged_frame.
Qed.

(** ** The service: how sign-in fails *)

(** X3. When the provider rejects the credentials, [signIn] resolves to a
    failure with the provider's message, and when it accepts them without
    handing out both a user and a session, to the failure 'Failed to sign
    in'; in both cases the only request sent is the sign-in itself, so the
    [users] table is not queried. *)
Theorem signIn_rejected_before_table (b : Backend) (email password : string) :
  (∀ err, ar_error (be_signInWithPassword b email password) = Some err →
     SupabaseAuthService.signIn email password b =
       (Returns (Failure (Some (message err))),
        logged [ReqSignInWithPassword email password] b)) ∧
  (ar_error (be_signInWithPassword b email password) = None →
   ar_user (be_signInWithPassword b email password) = None ∨
   ar_session (be_signInWithPassword b email password) = None →
     SupabaseAuthService.signIn email password b =
       (Returns (Failure (Some "Failed to sign in")),
        logged [ReqSignInWithPassword email password] b)).
Proof.
  split.
  - intros err Herr. service. rewrite Herr. reflexivity.
  - intros Herr Hmiss. service. rewrite Herr.
    destruct Hmiss as [-> | ->]; [reflexivity|].
    by destruct (ar_user _).
Qed.

(** Wrong credentials against the sample backend. *)
Lemma signIn_rejected_before_table_witness :
  SupabaseAuthService.signIn "a@b.com" "wrong" Sample.online =
    (Returns (Failure (Some "Invalid login credentials")),
     logged [ReqSignInWithPassword "a@b.com" "wrong"] Sample.online).
Proof.
  apply (proj1 (signIn_rejected_before_table Sample.online "a@b.com" "wrong")
           (Error "Invalid login credentials")).
  reflexivity.
Defined.

(** X4. A transport error on the [users] table is reported with its own
    message, by [signIn] and by [getCurrentUser] alike: it is not turned
    into 'User profile not found' nor into a success without a user. *)
Theorem table_fault_is_reported (b : Backend) (email password : string)
    (authUser : AuthUser) (session : Session) (err : exn) :
  be_fault b = Some err →
  (be_signInWithPassword b email password =
     {| ar_user := Some authUser; ar_session := Some session; ar_error := None |} →
   (SupabaseAuthService.signIn email password b).1 =
     Returns (Failure (Some (message err)))) ∧
  (be_getUser b = {| ur_user := Some authUser; ur_error := None |} →
   (SupabaseAuthService.getCurrentUser b).1 =
     Returns (Failure (Some (message err)))).
Proof.
  intros Hfault. split; intros Hauth; service; rewrite Hauth; cbn;
    rewrite Hfault; reflexivity.
Qed.

(** Ana signs in while the tables are out of reach. *)
Lemma table_fault_is_reported_witness :
  (SupabaseAuthService.signIn "a@b.com" "secret" Sample.offline).1 =
    Returns (Failure (Some "Failed to fetch")).
Proof.
  apply (proj1 (table_fault_is_reported Sample.offline "a@b.com" "secret"
                  (mkAuthUser "u1") (mkSession "t1") (Error "Failed to fetch")
                  eq_refl)).
  reflexivity.
Defined.

(** ** The service: sign-in and fetch agree *)

Lemma getCurrentUser_found (b : Backend) (authUser : AuthUser) (row : Row) :
  be_getUser b = {| ur_user := Some authUser; ur_error := None |} →
  be_fault b = None →
  be_users b !! au_id authUser = Some row →
  (SupabaseAuthService.getCurrentUser b).1 =
    Returns (Success (Some (mapDatabaseUserToUser
                              (Client.embed_vendor b (JStr (au_id authUser)) row)))).
Proof.
  intros Hauth Hfault Hrow. service. rewrite Hauth. cbn. rewrite Hfault. cbn.
  rewrite Hrow. reflexivity.
Qed.

(** The fetch does not look at the request log. *)
Lemma getCurrentUser_logged (reqs : list Request) (b : Backend) :
  (SupabaseAuthService.getCurrentUser (logged reqs b)).1 =
  (SupabaseAuthService.getCurrentUser b).1.
Proof.
  destruct (logged_frame reqs b) as (_ & _ & Hget & Husers & Hvendors & Hfault).
  service. unfold Client.embed_vendor. rewrite Hget.
  destruct (ur_error (be_getUser b)); [done|].
  destruct (ur_user (be_getUser b)); [|done]. cbn.
  rewrite Hfault, Husers, Hvendors.
  destruct (be_fault b); [done|]. cbn.
  by destruct (be_users b !! au_id a).
Qed.

(** X5. Right after a successful sign-in, when the provider reports the
    same account as the authenticated one, [getCurrentUser] resolves to
    exactly the user that [signIn] returned. *)
Theorem fetch_after_signIn (b : Backend) (email password : string)
    (data : SignInData) (authUser : AuthUser) :
  (SupabaseAuthService.signIn email password b).1 = Returns (Success data) →
  ar_user (be_signInWithPassword b email password) = Some authUser →
  be_getUser b = {| ur_user := Some authUser; ur_error := None |} →
  (SupabaseAuthService.getCurrentUser
     (SupabaseAuthService.signIn email password b).2).1 =
    Returns (Success (Some (sd_user data))).
Proof.
  intros Hin Hau Hget.
  assert (∃ session row,
            be_signInWithPassword b email password =
              {| ar_user := Some authUser; ar_session := Some session;
                 ar_error := None |} ∧
            be_fault b = None ∧ be_users b !! au_id authUser = Some row)
    as (session & row & Hauth & Hfault & Hrow).
  { revert Hin Hau. service.
    destruct (be_signInWithPassword b email password) as [[au|] [s|] [e|]]; cbn;
      try discriminate.
    destruct (be_fault b); cbn; [discriminate|].
    destruct (be_users b !! au_id au) eqn:E; cbn; [|discriminate].
    intros _ [= ->]. eauto. }
  rewrite (signIn_found email password b authUser session row Hauth Hfault Hrow) in Hin.
  injection Hin as <-. cbn.
  destruct (signIn_logs b email password) as (reqs & -> & _).
  rewrite getCurrentUser_logged.
  by apply getCurrentUser_found.
Qed.

(** Ana signs in and is fetched. *)
Lemma fetch_after_signIn_witness :
  (SupabaseAuthService.getCurrentUser
     (SupabaseAuthService.signIn "a@b.com" "secret" Sample.online).2).1 =
    Returns (Success (Some
      (mapDatabaseUserToUser
         (Client.embed_vendor Sample.online (JStr "u1") Sample.ana_row)))).
Proof.
  apply (fetch_after_signIn Sample.online "a@b.com" "secret"
           {| sd_user := mapDatabaseUserToUser
                           (Client.embed_vendor Sample.online (JStr "u1")
                              Sample.ana_row);
              sd_session := mkSession "t1" |}
           (mkAuthUser "u1")); reflexivity.
Defined.

(** ** The service: the profile update *)

Lemma apply_patch_cons k v patch row :
  Client.apply_patch ((k, v) :: patch) row =
  Client.apply_patch patch (match v with JUndefined => row | _ => <[k := v]> row end).
Proof. by destruct v. Qed.

(** What a column reads after a body was applied. *)
Lemma apply_patch_lookup (patch : list (string * jsval)) (row : Row) (col : string) :
  Client.apply_patch patch row !! col =
  match written patch col with
  | Some w => Some w
  | None => row !! col
  end.
Proof.
  revert row. induction patch as [|[k v] patch IH]; intros row; [done|].
  rewrite apply_patch_cons, IH. cbn.
  destruct (written patch col); [done|].
  case_decide; subst; destruct v;
    by rewrite ?lookup_insert_eq, ?lookup_insert_ne.
Qed.

Lemma apply_patch_idempotent (patch : list (string * jsval)) (row : Row) :
  Client.apply_patch patch (Client.apply_patch patch row) = Client.apply_patch patch row.
Proof.
  apply map_eq. intros col. rewrite !apply_patch_lookup.
  by destruct (written patch col).
Qed.

(** The update, by what the backend holds. *)
Lemma updateProfile_run (userId : jsval) (updates : gmap string jsval) (b : Backend) :
  let body := SupabaseAuthService.update_body updates in
  let b1 := add_request (ReqUpdateUser userId body) b in
  SupabaseAuthService.updateProfile userId updates b =
  match be_fault b with
  | Some err => (Returns (Failure (Some (message err))), b1)
  | None =>
      match Client.eq_id (be_users b) userId, userId with
      | Some row, JStr key =>
          (Returns (Success (mapDatabaseUserToUser (Client.apply_patch body row))),
           set_users (<[key := Client.apply_patch body row]> (be_users b)) b1)
      | _, _ => (Returns (Failure (Some (message Client.no_single_row))), b1)
      end
  end.
Proof.
  cbn. service. unfold Client.update_row. cbn.
  destruct (be_fault b); [done|].
  destruct userId; try done. cbn.
  by destruct (be_users b !! s).
Qed.

(** X6. Updating the profile of an id that has no row in [users] does not
    create the row: the update resolves to the failure that [.single()]
    gives on zero rows and the table is left as it was. *)
Theorem updateProfile_missing_row (userId : jsval) (updates : gmap string jsval)
    (b : Backend) :
  be_fault b = None →
  Client.eq_id (be_users b) userId = None →
  (SupabaseAuthService.updateProfile userId updates b).1 =
    Returns (Failure (Some "Cannot coerce the result to a single JSON object")) ∧
  be_users (SupabaseAuthService.updateProfile userId updates b).2 = be_users b.
Proof.
  intros Hfault Hrow. rewrite updateProfile_run. cbn. rewrite Hfault, Hrow. done.
Qed.

Lemma updateProfile_missing_row_witness :
  (SupabaseAuthService.updateProfile (JStr "u9") Sample.greedy_updates
     Sample.online).1 =
    Returns (Failure (Some "Cannot coerce the result to a single JSON object")).
Proof.
  apply (updateProfile_missing_row (JStr "u9") Sample.greedy_updates Sample.online);
    reflexivity.
Defined.

(** X7. The update touches no row but the one whose key is the given id:
    every other row of [users] is the same afterwards. *)
Theorem updateProfile_other_rows (userId : jsval) (updates : gmap string jsval)
    (b : Backend) (key : string) :
  userId ≠ JStr key →
  be_users (SupabaseAuthService.updateProfile userId updates b).2 !! key =
  be_users b !! key.
Proof.
  intros Hne. rewrite updateProfile_run. cbv zeta.
  destruct (be_fault b); [done|].
  destruct userId as [| | |k|]; try done. cbn [Client.eq_id].
  destruct (be_users b !! k); [|done]. cbn [snd be_users set_users].
  rewrite lookup_insert_ne; [done|]. congruence.
Qed.

Lemma updateProfile_other_rows_witness :
  be_users (SupabaseAuthService.updateProfile (JStr "u2") Sample.greedy_updates
              Sample.online).2 !! "u1" = Some Sample.ana_row.
Proof.
  rewrite (updateProfile_other_rows (JStr "u2") Sample.greedy_updates
             Sample.online "u1"); [reflexivity | discriminate].
Defined.

(** X8. On an existing row the update succeeds with the mapped new row, which
    is also the row stored; in it each of the four profile columns holds the
    value given in [updates], [null] and the empty string included, and keeps
    its old value where [updates] has none. *)
Theorem updateProfile_columns (key : string) (row : Row)
    (updates : gmap string jsval) (b : Backend) :
  be_fault b = None →
  be_users b !! key = Some row →
  let written_or_kept (col from : string) (row' : Row) :=
    row' !! col = match field updates from with
                  | JUndefined => row !! col
                  | v => Some v
                  end in
  ∃ row',
    be_users (SupabaseAuthService.updateProfile (JStr key) updates b).2 !! key
      = Some row' ∧
    (SupabaseAuthService.updateProfile (JStr key) updates b).1 =
      Returns (Success (mapDatabaseUserToUser row')) ∧
    written_or_kept "first_name" "firstName" row' ∧
    written_or_kept "last_name" "lastName" row' ∧
    written_or_kept "phone" "phone" row' ∧
    written_or_kept "avatar" "avatar" row'.
Proof.
  intros Hfault Hrow. cbv zeta.
  exists (Client.apply_patch (SupabaseAuthService.update_body updates) row).
  rewrite updateProfile_run. cbv zeta. rewrite Hfault.
  cbn [Client.eq_id]. rewrite Hrow. cbn [fst snd be_users set_users].
  split; [apply lookup_insert_eq|]. split; [reflexivity|].
  rewrite !apply_patch_lookup. unfold SupabaseAuthService.update_body.
  split_and!; cbn; repeat case_decide; try done; by destruct (field updates _).
Qed.

(** Ana's first name is rewritten, her last name is kept. *)
Lemma updateProfile_columns_witness :
  ∃ row',
    be_users (SupabaseAuthService.updateProfile (JStr "u1") Sample.greedy_updates
                Sample.online).2 !! "u1" = Some row' ∧
    row' !! "first_name" = Some (JStr "Anna") ∧
    row' !! "last_name" = Some (JStr "Lee").
Proof.
  destruct (updateProfile_columns "u1" Sample.ana_row Sample.greedy_updates
              Sample.online eq_refl eq_refl)
    as (row' & Hstored & _ & Hfirst & Hlast & _).
  exists row'. split; [exact Hstored|]. split.
  - rewrite Hfirst. reflexivity.
  - rewrite Hlast. reflexivity.
Defined.

(** X9. Repeating a profile update with the same arguments changes nothing
    more: the table after the second update is the table after the first,
    and both resolve to the same envelope. *)
Theorem updateProfile_idempotent (userId : jsval) (updates : gmap string jsval)
    (b : Backend) :
  be_users (SupabaseAuthService.updateProfile userId updates
              (SupabaseAuthService.updateProfile userId updates b).2).2 =
    be_users (SupabaseAuthService.updateProfile userId updates b).2 ∧
  (SupabaseAuthService.updateProfile userId updates
     (SupabaseAuthService.updateProfile userId updates b).2).1 =
    (SupabaseAuthService.updateProfile userId updates b).1.
Proof.
  rewrite (updateProfile_run userId updates b). cbv zeta.
  destruct (be_fault b) eqn:Hfault.
  { rewrite updateProfile_run. cbv zeta. cbn [snd fst be_fault add_request].
    by rewrite Hfault. }
  destruct userId as [| | |k|];
    try (rewrite updateProfile_run; cbv zeta;
         cbn [snd fst be_fault add_request Client.eq_id]; by rewrite Hfault).
  cbn [Client.eq_id].
  destruct (be_users b !! k) as [row|] eqn:Hrow.
  - rewrite updateProfile_run. cbv zeta.
    cbn [snd fst be_fault be_users add_request set_users Client.eq_id].
    rewrite Hfault, lookup_insert_eq, apply_patch_idempotent.
    cbn [snd fst be_users set_users]. by rewrite insert_insert_eq.
  - rewrite updateProfile_run. cbv zeta.
    cbn [snd fst be_fault be_users add_request Client.eq_id].
    by rewrite Hfault, Hrow.
Qed.

(** ** The profile mapper *)

(** X10. The mapper reads eleven properties of the raw record and nothing
    else: two records that agree on them map to the same user, so no other
    column (the [password] column that the inserts write, for one) reaches
    the canonical user. *)
Theorem mapper_reads_only_its_keys (row row' : Row) :
  (∀ k, k ∈ mapper_keys → row !! k = row' !! k) →
  mapDatabaseUserToUser row = mapDatabaseUserToUser row'.
Proof.
  intros Hsame.
  assert (Hfield : ∀ k, k ∈ mapper_keys → field row k = field row' k).
  { intros k Hk. unfold field. by rewrite (Hsame k Hk). }
  unfold mapDatabaseUserToUser.
  rewrite !(Hfield "id"), !(Hfield "email"), !(Hfield "first_name"),
    !(Hfield "firstName"), !(Hfield "last_name"), !(Hfield "lastName"),
    !(Hfield "role"), !(Hfield "status"), !(Hfield "avatar"), !(Hfield "phone"),
    !(Hfield "vendor")
    by (unfold mapper_keys; member).
  reflexivity.
Qed.

Lemma mapper_reads_only_its_keys_witness :
  mapDatabaseUserToUser (<["password" := JStr "hunter2"]> Sample.ana_row) = Sample.ana.
Proof.
  apply (mapper_reads_only_its_keys (<["password" := JStr "hunter2"]> Sample.ana_row)
           Sample.ana_row).
  intros k Hk. apply lookup_insert_ne. intros <-.
  unfold mapper_keys in Hk. rewrite !elem_of_cons, elem_of_nil in Hk.
  intuition discriminate.
Defined.

Lemma mapper_vendor_column (row : Row) (v : jsval) :
  same_profile (mapDatabaseUserToUser (<["vendor" := v]> row))
    (mapDatabaseUserToUser row) ∧
  vendor (mapDatabaseUserToUser (<["vendor" := v]> row)) =
    if truthy v
    then Some {| vendor_id := prop v "id"; vendor_shopname := prop v "shopname";
                 vendor_status := prop v "status" |}
    else None.
Proof.
  unfold same_profile, mapDatabaseUserToUser, field. cbn.
  rewrite lookup_insert_eq, !lookup_insert_ne by done. cbn. done.
Qed.

(** X11. In a user mapped from a fetched row, the vendor summary comes from
    the [vendors] table alone and everything else from the [users] row
    alone: without a vendor the summary is absent, with one it carries the
    vendor's id, shop name and status, and the other fields are those the
    bare row maps to. *)
Theorem fetched_vendor_summary (b : Backend) (idv : jsval) (row : Row) :
  same_profile (mapDatabaseUserToUser (Client.embed_vendor b idv row))
    (mapDatabaseUserToUser row) ∧
  (be_vendors b !! to_string idv = None →
   vendor (mapDatabaseUserToUser (Client.embed_vendor b idv row)) = None) ∧
  (∀ fields, be_vendors b !! to_string idv = Some (JObj fields) →
   vendor (mapDatabaseUserToUser (Client.embed_vendor b idv row)) =
     Some {| vendor_id := assoc "id" fields;
             vendor_shopname := assoc "shopname" fields;
             vendor_status := assoc "status" fields |}).
Proof.
  unfold Client.embed_vendor.
  destruct (mapper_vendor_column row (default JNull (be_vendors b !! to_string idv)))
    as [Hsame Hvendor].
  split_and!; [done| |]; [intros H | intros fields H]; rewrite Hvendor, H; done.
Qed.

(** Ana with her shop. *)
Lemma fetched_vendor_summary_witness :
  vendor (mapDatabaseUserToUser
            (Client.embed_vendor Sample2.with_shop (JStr "u1") Sample.ana_row)) =
    Some {| vendor_id := JStr "v1"; vendor_shopname := JStr "Belle";
            vendor_status := JStr "APPROVED" |}.
Proof.
  apply (proj2 (proj2 (fetched_vendor_summary Sample2.with_shop (JStr "u1")
                         Sample.ana_row))
           [("id", JStr "v1"); ("shopname", JStr "Belle");
            ("status", JStr "APPROVED")]).
  reflexivity.
Defined.

(** ** The rows the service inserts *)

Lemma split_not_nil (sep : ascii) (s : string) : JsString.split sep s ≠ [].
Proof.
  destruct s as [|c s]; cbn; [done|].
  case_decide; [done|]. by destruct (JsString.split sep s).
Qed.

Lemma join_cons (sep x : string) (rest : list string) :
  rest ≠ [] → JsString.join sep (x :: rest) = x +:+ sep +:+ JsString.join sep rest.
Proof. by destruct rest. Qed.

(** Joining what was split gives the string back. *)
Lemma join_split (sep : ascii) (s : string) :
  JsString.join (String sep EmptyString) (JsString.split sep s) = s.
Proof.
  induction s as [|c s IH]; [done|]. cbn [JsString.split].
  pose proof (split_not_nil sep s) as Hne.
  case_decide as Hc.
  - subst c. rewrite join_cons by done. cbn. by rewrite IH.
  - destruct (JsString.split sep s) as [|x xs]; [done|].
    destruct xs as [|y ys].
    + cbn in *. by rewrite IH.
    + rewrite join_cons by done. rewrite join_cons in IH by done.
      cbn. by rewrite <- IH.
Qed.

Lemma split_first_word (sep : ascii) (a b : string) :
  JsString.occurs sep a = false →
  JsString.split sep (a +:+ String sep b) = a :: JsString.split sep b.
Proof.
  induction a as [|c a IH]; intros Hocc.
  - change (EmptyString +:+ String sep b) with (String sep b).
    cbn [JsString.split]. by rewrite decide_True.
  - change (String c a +:+ String sep b) with (String c (a +:+ String sep b)).
    cbn [JsString.split JsString.occurs] in *.
    case_decide; [done|]. by rewrite IH.
Qed.

Lemma split_one_word (sep : ascii) (a : string) :
  JsString.occurs sep a = false → JsString.split sep a = [a].
Proof.
  induction a as [|c a IH]; intros Hocc; [done|].
  cbn [JsString.split JsString.occurs] in *.
  case_decide; [done|]. by rewrite IH.
Qed.

Lemma words_of_full_name (a b : string) :
  JsString.occurs " " a = false →
  first_word (Some (a +:+ " " +:+ b)) = JStr a ∧
  other_words (Some (a +:+ " " +:+ b)) = JStr b.
Proof.
  intros Hocc. unfold first_word, other_words.
  change (" " +:+ b) with (String " " b).
  rewrite split_first_word by done. cbn [hd tl].
  by rewrite (join_split " " b).
Qed.

Lemma holds_lookup (row : Row) (body : list (string * jsval)) (k : string) (v : jsval) :
  holds row body → (k, v) ∈ body → v ≠ JUndefined → field row k = v.
Proof. intros H Hin Hv. unfold field. by rewrite (H k v Hin Hv). Qed.

(** A row made of a body with distinct keys holds the body. *)
Lemma holds_list_to_map (body : list (string * jsval)) :
  NoDup body.*1 → holds (list_to_map body) body.
Proof. intros Hnd k v Hin _. by apply elem_of_list_to_map_1. Qed.

Lemma oauth_insert_body_keys (u : OAuthUser) : NoDup (oauth_insert_body u).*1.
Proof.
  cbn. repeat (apply NoDup_cons_2;
    [rewrite ?not_elem_of_cons; split_and?; try discriminate; apply not_elem_of_nil|]).
  apply NoDup_nil_2.
Qed.

Lemma profile_insert_body_keys (userId : string) (userData : RegisterData) :
  NoDup (profile_insert_body userId userData).*1.
Proof.
  cbn. repeat (apply NoDup_cons_2;
    [rewrite ?not_elem_of_cons; split_and?; try discriminate; apply not_elem_of_nil|]).
  apply NoDup_nil_2.
Qed.

(** X12. For a first sign-in through the identity provider with a full name
    made of a first word, a space and a non-empty rest, the profile that
    [handleOAuthCallback] inserts maps back to that name: first name the
    first word, last name everything after the first space, display name
    the full name. *)
Theorem oauth_full_name_round_trip (u : OAuthUser) (a b : string) (row : Row) :
  ou_full_name u = Some (a +:+ " " +:+ b) →
  JsString.occurs " " a = false →
  a ≠ EmptyString → b ≠ EmptyString →
  holds row (oauth_insert_body u) →
  firstName (mapDatabaseUserToUser row) = JStr a ∧
  lastName (mapDatabaseUserToUser row) = JStr b ∧
  name (mapDatabaseUserToUser row) = a +:+ " " +:+ b.
Proof.
  intros Hfull Hocc Ha Hb Hrow.
  destruct (words_of_full_name a b Hocc) as [Hfirst Hrest].
  assert (field row "first_name" = JStr a) as Hf.
  { apply (holds_lookup row _ _ _ Hrow); [|done].
    unfold oauth_insert_body. rewrite Hfull, Hfirst. unfold js_or.
    rewrite truthy_present by done. member. }
  assert (field row "last_name" = JStr b) as Hl.
  { apply (holds_lookup row _ _ _ Hrow); [|done].
    unfold oauth_insert_body. rewrite Hfull, Hrest. unfold js_or.
    rewrite (truthy_present b) by done. member. }
  unfold mapDatabaseUserToUser. cbn. rewrite Hf, Hl. unfold js_or.
  rewrite !truthy_present by done. done.
Qed.

Lemma oauth_full_name_round_trip_witness :
  firstName (mapDatabaseUserToUser Sample2.google_row) = JStr "Ana" ∧
  lastName (mapDatabaseUserToUser Sample2.google_row) = JStr "Maria Lee" ∧
  name (mapDatabaseUserToUser Sample2.google_row) = "Ana Maria Lee".
Proof.
  apply (oauth_full_name_round_trip Sample2.google_user "Ana" "Maria Lee"
           Sample2.google_row); try done.
  apply holds_list_to_map, oauth_insert_body_keys.
Defined.

(** X13. For a first sign-in with a one-word full name the inserted last
    name is the empty string, which the mapper's [||] passes over: the
    mapped user has no last name and the display name is the word followed
    by ' undefined'. *)
Theorem oauth_one_word_name (u : OAuthUser) (a : string) (row : Row) :
  ou_full_name u = Some a →
  JsString.occurs " " a = false →
  a ≠ EmptyString →
  holds row (oauth_insert_body u) →
  row !! "lastName" = None →
  row !! "last_name" = Some (JStr EmptyString) ∧
  firstName (mapDatabaseUserToUser row) = JStr a ∧
  lastName (mapDatabaseUserToUser row) = JUndefined ∧
  name (mapDatabaseUserToUser row) = a +:+ " undefined".
Proof.
  intros Hfull Hocc Ha Hrow Hcamel.
  assert (field row "first_name" = JStr a) as Hf.
  { apply (holds_lookup row _ _ _ Hrow); [|done].
    unfold oauth_insert_body, first_word. rewrite Hfull, split_one_word by done.
    cbn [hd]. unfold js_or. rewrite truthy_present by done. member. }
  assert (row !! "last_name" = Some (JStr EmptyString)) as Hl.
  { apply Hrow; [|done].
    unfold oauth_insert_body, other_words. rewrite Hfull, split_one_word by done.
    cbn. member. }
  split; [done|].
  unfold mapDatabaseUserToUser. cbn. rewrite Hf.
  unfold field. rewrite Hl, Hcamel. unfold js_or.
  rewrite !truthy_present by done. done.
Qed.

Lemma oauth_one_word_name_witness :
  name (mapDatabaseUserToUser Sample2.mononym_row) = "Madonna undefined".
Proof.
  apply (oauth_one_word_name Sample2.mononym "Madonna" Sample2.mononym_row);
    try done.
  apply holds_list_to_map, oauth_insert_body_keys.
Defined.

Lemma first_name_default (full_name : option string) :
  ∃ s, js_or (first_word full_name) (JStr "User") = JStr s ∧ s ≠ EmptyString.
Proof.
  destruct full_name as [full|]; cbn; [|by exists "User"].
  unfold js_or. cbn. case_decide as H.
  - by exists "User".
  - eauto.
Qed.

(** X14. Whatever the identity provider sends, the profile inserted by
    [handleOAuthCallback] has a non-empty first name (the word before the
    first space of the full name, or 'User'), the role CUSTOMER and the
    status ACTIVE, and so routes to the customer surface. *)
Theorem oauth_profile_defaults (u : OAuthUser) (row : Row) (current : option User) :
  holds row (oauth_insert_body u) →
  (∃ s, row !! "first_name" = Some (JStr s) ∧ s ≠ EmptyString ∧
        firstName (mapDatabaseUserToUser row) = JStr s) ∧
  role (mapDatabaseUserToUser row) = JStr "CUSTOMER" ∧
  status (mapDatabaseUserToUser row) = JStr "ACTIVE" ∧
  getDashboardPath current (role (mapDatabaseUserToUser row)) = "/customer".
Proof.
  intros Hrow.
  destruct (first_name_default (ou_full_name u)) as (s & Hs & Hne).
  assert (row !! "first_name" = Some (JStr s)) as Hf.
  { apply Hrow; [|done]. unfold oauth_insert_body. rewrite Hs. member. }
  assert (row !! "role" = Some (JStr "CUSTOMER")) as Hr
    by (apply Hrow; [unfold oauth_insert_body; member | done]).
  assert (row !! "status" = Some (JStr "ACTIVE")) as Hst
    by (apply Hrow; [unfold oauth_insert_body; member | done]).
  unfold mapDatabaseUserToUser, field. cbn. rewrite Hf, Hr, Hst. cbn.
  split_and!; try done.
  exists s. unfold js_or. by rewrite truthy_present.
Qed.

Lemma oauth_profile_defaults_witness :
  getDashboardPath (Some Sample.ana)
    (role (mapDatabaseUserToUser Sample2.mononym_row)) = "/customer".
Proof.
  apply (oauth_profile_defaults Sample2.mononym Sample2.mononym_row
           (Some Sample.ana)).
  apply holds_list_to_map, oauth_insert_body_keys.
Defined.

(** X15. A profile inserted by [createUserProfile] carries the role given
    at registration, whatever it is, and CUSTOMER when none or an empty one
    was given; it is ACTIVE and routes to the surface of that role. *)
Theorem created_profile_route (userId : string) (userData : RegisterData)
    (row : Row) (current : option User) :
  holds row (profile_insert_body userId userData) →
  role (mapDatabaseUserToUser row) =
    JStr (match rd_role userData with
          | Some r => if decide (r = EmptyString) then "CUSTOMER" else r
          | None => "CUSTOMER"
          end) ∧
  getDashboardPath current (role (mapDatabaseUserToUser row)) =
    role_table (match rd_role userData with
                | Some r => if decide (r = EmptyString) then "CUSTOMER" else r
                | None => "CUSTOMER"
                end) ∧
  status (mapDatabaseUserToUser row) = JStr "ACTIVE".
Proof.
  intros Hrow.
  set (r' := match rd_role userData with
             | Some r => if decide (r = EmptyString) then "CUSTOMER" else r
             | None => "CUSTOMER"
             end).
  assert (Hne : r' ≠ EmptyString).
  { unfold r'. destruct (rd_role userData); [case_decide|]; done. }
  assert (js_or (opt_str (rd_role userData)) (JStr "CUSTOMER") = JStr r') as Hjs.
  { unfold r', js_or. destruct (rd_role userData) as [r|]; cbn; [|done].
    by case_decide. }
  assert (row !! "role" = Some (JStr r')) as Hr.
  { apply Hrow; [|done]. unfold profile_insert_body. rewrite Hjs. member. }
  assert (row !! "status" = Some (JStr "ACTIVE")) as Hst
    by (apply Hrow; [unfold profile_insert_body; member | done]).
  unfold mapDatabaseUserToUser, field. cbn. rewrite Hr, Hst. cbn.
  split_and!; try done. by apply getDashboardPath_present.
Qed.

Lemma created_profile_route_witness :
  getDashboardPath None (role (mapDatabaseUserToUser Sample2.newcomer_row))
    = "/customer".
Proof.
  apply (proj1 (proj2 (created_profile_route "u5" Sample2.newcomer
                         Sample2.newcomer_row None
                         (holds_list_to_map _
                            (profile_insert_body_keys "u5" Sample2.newcomer))))).
Defined.

(** ** The provider: login and logout end to end *)

(** The world [login] leaves, by the outcome of the sign-in call. *)
Lemma login_world (auth : AuthService) (email password : string) (w : World) :
  login auth email password w =
  match svc_signIn auth email password (backend w) with
  | (Returns (Success data), b) =>
      (Returns tt,
       {| user := Some (sd_user data); isLoading := false;
          effects := effects w ++
            [ToastSuccess "Login successful";
             Navigate (getDashboardPath (user w) (role (sd_user data)))];
          backend := b |})
  | (Returns (Failure error), b) =>
      (Throws (Error (default "Login failed" error)),
       {| user := user w; isLoading := false;
          effects := effects w ++
            [ToastError (default "Login failed" error);
             ConsoleError "Login error:" (Error (default "Login failed" error))];
          backend := b |})
  | (Throws err, b) =>
      (Throws err,
       {| user := user w; isLoading := false;
          effects := effects w ++ [ConsoleError "Login error:" err];
          backend := b |})
  end.
Proof.
  unfold login. run.
  destruct (svc_signIn auth email password (backend w)) as [[[data|error]|err] b];
    cbn; by rewrite <- ?app_assoc.
Qed.

(** X16. When the sign-in call resolves to a failure, [login] raises an
    error with the envelope's message, or 'Login failed' when the envelope
    has none; it shows that message in one error toast, does not navigate,
    and leaves the local user as it was. *)
Theorem login_failure (auth : AuthService) (email password : string) (w : World)
    (error : option string) (b : Backend) :
  svc_signIn auth email password (backend w) = (Returns (Failure error), b) →
  login auth email password w =
    (Throws (Error (default "Login failed" error)),
     {| user := user w; isLoading := false;
        effects := effects w ++
          [ToastError (default "Login failed" error);
           ConsoleError "Login error:" (Error (default "Login failed" error))];
        backend := b |}).
Proof. intros H. by rewrite login_world, H. Qed.

(** A service that fails without a message. *)
Lemma login_failure_witness :
  (login Sample2.refusing "a@b.com" "secret"
     (Sample.world None false Sample.online)).1 = Throws (Error "Login failed").
Proof.
  rewrite (login_failure Sample2.refusing "a@b.com" "secret"
             (Sample.world None false Sample.online) None Sample.online eq_refl).
  reflexivity.
Defined.

(** X17. With the service of this repository, credentials the provider
    rejects make [login] raise the provider's own message and toast it; one
    request has been sent, and the local user is as before. *)
Theorem login_rejected_credentials (email password : string) (w : World) (err : exn) :
  ar_error (be_signInWithPassword (backend w) email password) = Some err →
  login supabaseAuth email password w =
    (Throws (Error (message err)),
     {| user := user w; isLoading := false;
        effects := effects w ++
          [ToastError (message err);
           ConsoleError "Login error:" (Error (message err))];
        backend := logged [ReqSignInWithPassword email password] (backend w) |}).
Proof.
  intros Herr. rewrite login_world. cbn.
  assert (SupabaseAuthService.signIn email password (backend w) =
          (Returns (Failure (Some (message err))),
           logged [ReqSignInWithPassword email password] (backend w))) as ->; [|done].
  service. by rewrite Herr.
Qed.

Lemma login_rejected_credentials_witness :
  (login supabaseAuth "a@b.com" "wrong"
     (Sample.world (Some Sample.ana) false Sample.online)).1 =
    Throws (Error "Invalid login credentials").
Proof.
  rewrite (login_rejected_credentials "a@b.com" "wrong"
             (Sample.world (Some Sample.ana) false Sample.online)
             (Error "Invalid login credentials") eq_refl).
  reflexivity.
Defined.

(** X18. With the service of this repository, a login whose profile row has
    a non-empty role performs exactly two effects: the success toast and one
    navigation, to the surface the role table gives for that role. *)
Theorem login_lands_on_role (email password : string) (w : World)
    (authUser : AuthUser) (session : Session) (row : Row) (r : string) :
  be_signInWithPassword (backend w) email password =
    {| ar_user := Some authUser; ar_session := Some session; ar_error := None |} →
  be_fault (backend w) = None →
  be_users (backend w) !! au_id authUser = Some row →
  row !! "role" = Some (JStr r) →
  r ≠ EmptyString →
  effects (login supabaseAuth email password w).2 =
    (effects w ++ [ToastSuccess "Login successful"; Navigate (role_table r)])%list.
Proof.
  intros Hauth Hfault Hrow Hrole Hr. rewrite login_world. cbn.
  pose proof (signIn_found email password (backend w) authUser session row
                Hauth Hfault Hrow) as Hin.
  destruct (SupabaseAuthService.signIn email password (backend w)) as [o b].
  cbn in Hin. subst o. cbn.
  unfold Client.embed_vendor, field.
  rewrite lookup_insert_ne by done. rewrite Hrole. cbn.
  by rewrite getDashboardPath_present.
Qed.

Lemma login_lands_on_role_witness :
  effects (login supabaseAuth "a@b.com" "secret"
             (Sample.world None false Sample.online)).2 =
    [ToastSuccess "Login successful"; Navigate "/vendor"].
Proof.
  apply (login_lands_on_role "a@b.com" "secret"
           (Sample.world None false Sample.online)
           (mkAuthUser "u1") (mkSession "t1") Sample.ana_row "VENDOR");
    done.
Defined.

(** The world [logout] leaves, by the outcome of the sign-out call. *)
Lemma logout_world (auth : AuthService) (w : World) :
  logout auth w =
  match svc_signOut auth (backend w) with
  | (Returns (Success _), b) =>
      (Returns tt,
       {| user := None; isLoading := false;
          effects := effects w ++
            [ToastSuccess "Logged out successfully"; Navigate "/"];
          backend := b |})
  | (Returns (Failure error), b) =>
      (Throws (Error (default "Logout failed" error)),
       {| user := user w; isLoading := false;
          effects := effects w ++
            [ToastError (default "Logout failed" error);
             ConsoleError "Logout error:" (Error (default "Logout failed" error))];
          backend := b |})
  | (Throws err, b) =>
      (Throws err,
       {| user := user w; isLoading := false;
          effects := effects w ++ [ConsoleError "Logout error:" err];
          backend := b |})
  end.
Proof.
  unfold logout. run.
  destruct (svc_signOut auth (backend w)) as [[[[]|error]|err] b];
    cbn; by rewrite <- ?app_assoc.
Qed.

(** X19. With the service of this repository [logout] sends one sign-out
    request. If the provider reports no error it clears the user, toasts and
    navigates to '/'; if it reports one, [logout] raises the provider's
    message, toasts it, does not navigate and keeps the user. *)
Theorem logout_on_service (w : World) :
  logout supabaseAuth w =
  match be_signOut (backend w) with
  | None =>
      (Returns tt,
       {| user := None; isLoading := false;
          effects := effects w ++
            [ToastSuccess "Logged out successfully"; Navigate "/"];
          backend := logged [ReqSignOut] (backend w) |})
  | Some err =>
      (Throws (Error (message err)),
       {| user := user w; isLoading := false;
          effects := effects w ++
            [ToastError (message err);
             ConsoleError "Logout error:" (Error (message err))];
          backend := logged [ReqSignOut] (backend w) |})
  end.
Proof.
  rewrite logout_world. cbn. service. by destruct (be_signOut (backend w)).
Qed.

(** ** The provider: refresh, listener and profile update *)

(** X20. With the service of this repository [refreshToken] always returns:
    its catch block is never entered. It leaves the loading flag and the
    effects alone (no toast, no navigation) and sets the user to the fetched
    one, or to absent when the fetch gave none. *)
Theorem refreshToken_on_service (w : World) :
  (refreshToken supabaseAuth w).1 = Returns tt ∧
  isLoading (refreshToken supabaseAuth w).2 = isLoading w ∧
  effects (refreshToken supabaseAuth w).2 = effects w ∧
  user (refreshToken supabaseAuth w).2 =
    match (SupabaseAuthService.getCurrentUser (backend w)).1 with
    | Returns (Success (Some data)) => Some data
    | _ => None
    end.
Proof.
  destruct (getCurrentUser_returns (backend w)) as [env Henv].
  unfold refreshToken. run.
  destruct (SupabaseAuthService.getCurrentUser (backend w)) as [o b].
  cbn in Henv. subst o. by destruct env as [[data|]|error].
Qed.

(** X21. The push-event listener never toasts and never navigates: whatever
    the event, the only effect it adds is its console log line. *)
Theorem listener_is_silent (event : string) (session : option Session) (w : World) :
  effects (onAuthStateChange supabaseAuth event session w).2 =
    (effects w ++ [ConsoleLog "Auth state changed:"])%list.
Proof.
  unfold onAuthStateChange.
  set (w1 := {| user := user w; isLoading := isLoading w;
                effects := effects w ++ [ConsoleLog "Auth state changed:"];
                backend := backend w |}).
  assert (Hfetch : effects (fetch_and_install supabaseAuth w1).2 = effects w1 ∧
                   (fetch_and_install supabaseAuth w1).1 = Returns tt).
  { destruct (getCurrentUser_returns (backend w1)) as [env Henv].
    unfold fetch_and_install. run.
    destruct (SupabaseAuthService.getCurrentUser (backend w)) as [o b].
    cbn in Henv. subst o. by destruct env as [[data|]|error]. }
  destruct Hfetch as [Heff Hret].
  destruct (bool_decide (event = "SIGNED_IN") && bool_decide (is_Some session));
    [|destruct (bool_decide (event = "SIGNED_OUT"));
      [|destruct (bool_decide (event = "TOKEN_REFRESHED") &&
                  bool_decide (is_Some session))]];
    run; fold w1;
    try (destruct (fetch_and_install supabaseAuth w1) as [o w2];
         cbn in *; subst o; cbn); done.
Qed.

(** X22. With the service of this repository, a successful profile update
    installs a user without a vendor summary, whatever vendor the user had:
    the update's own select does not embed the vendor. (The [users] table
    has no column called [vendor].) *)
Theorem updateProfile_drops_vendor (updates : gmap string jsval) (w : World)
    (current : User) (key : string) (row : Row) :
  user w = Some current →
  id current = JStr key →
  be_fault (backend w) = None →
  be_users (backend w) !! key = Some row →
  row !! "vendor" = None →
  (updateProfile supabaseAuth updates w).1 = Returns tt ∧
  ∃ data, user (updateProfile supabaseAuth updates w).2 = Some data ∧
          vendor data = None.
Proof.
  intros Hu Hid Hfault Hrow Hvendor.
  unfold updateProfile. run. rewrite Hu. cbn. rewrite Hid.
  rewrite updateProfile_run. cbv zeta. cbn [be_fault be_users Client.eq_id backend].
  rewrite Hfault, Hrow. cbn -[Client.apply_patch].
  split; [done|]. eexists. split; [reflexivity|].
  cbn -[Client.apply_patch]. unfold field at 1.
  rewrite (apply_patch_other (SupabaseAuthService.update_body updates) row "vendor").
  - by rewrite Hvendor.
  - cbn. rewrite !not_elem_of_cons. split_and!; try discriminate.
    apply not_elem_of_nil.
Qed.

(** Ana, who has a shop, renames herself. *)
Lemma updateProfile_drops_vendor_witness :
  vendor Sample2.ana_with_shop ≠ None ∧
  ∃ data,
    user (updateProfile supabaseAuth Sample.greedy_updates
            (Sample.world (Some Sample2.ana_with_shop) false Sample2.with_shop)).2
      = Some data ∧
    vendor data = None.
Proof.
  split; [discriminate|].
  apply (updateProfile_drops_vendor Sample.greedy_updates
           (Sample.world (Some Sample2.ana_with_shop) false Sample2.with_shop)
           Sample2.ana_with_shop "u1" Sample.ana_row); reflexivity.
Defined.

(** ** The provider: registration and sign-up *)

(** X23. When sign-up succeeds without a session (the address still has to
    be confirmed), [register] installs no user: it returns after a toast
    that asks to check the mailbox and a navigation to '/login'. *)
Theorem register_awaiting_confirmation (account : AccountService)
    (data : RegisterData) (w : World) (registered : option User) (b : Backend) :
  svc_signUp account data (backend w) =
    (Returns (Success {| su_user := registered; su_session := None |}), b) →
  register account data w =
    (Returns tt,
     {| user := user w; isLoading := false;
        effects := effects w ++
          [ToastSuccess
             "Registration successful! Please check your email to confirm your account.";
           Navigate "/login"];
        backend := b |}).
Proof.
  intros H. unfold register, after_signUp. run. rewrite H. cbn.
  by rewrite <- app_assoc.
Qed.

Lemma register_awaiting_confirmation_witness :
  register Sample2.confirming Sample2.newcomer
    (Sample.world None false Sample.signed_out) =
  (Returns tt,
   {| user := None; isLoading := false;
      effects :=
        [ToastSuccess
           "Registration successful! Please check your email to confirm your account.";
         Navigate "/login"];
      backend := Sample.signed_out |}).
Proof.
  apply (register_awaiting_confirmation Sample2.confirming Sample2.newcomer
           (Sample.world None false Sample.signed_out) None Sample.signed_out).
  reflexivity.
Defined.

(** X24. When sign-up succeeds with a session, [register] installs the
    returned user, toasts, and navigates once, to the destination the role
    router gives for that user's role. *)
Theorem register_with_session (account : AccountService)
    (data : RegisterData) (w : World) (registered : User) (session : Session)
    (b : Backend) :
  svc_signUp account data (backend w) =
    (Returns (Success {| su_user := Some registered; su_session := Some session |}), b) →
  register account data w =
    (Returns tt,
     {| user := Some registered; isLoading := false;
        effects := effects w ++
          [ToastSuccess "Registration successful";
           Navigate (getDashboardPath (user w) (role registered))];
        backend := b |}).
Proof.
  intros H. unfold register, after_signUp. run. rewrite H. cbn.
  by rewrite <- app_assoc.
Qed.

Lemma register_with_session_witness :
  register Sample2.in_session Sample2.newcomer
    (Sample.world None false Sample.online) =
  (Returns tt,
   {| user := Some Sample.ana; isLoading := false;
      effects := [ToastSuccess "Registration successful"; Navigate "/vendor"];
      backend := Sample.online |}).
Proof.
  rewrite (register_with_session Sample2.in_session Sample2.newcomer
             (Sample.world None false Sample.online) Sample.ana (mkSession "t1")
             Sample.online eq_refl).
  reflexivity.
Defined.

(** X25. An e-mail sign-up that lacks the address, the password (missing or
    empty) or the user data raises 'Email, password, and user data are
    required for email signup' without calling the service: the backend and
    the user are untouched and the loading flag is false afterwards. *)
Theorem handleSignup_missing_input (account : AccountService) (provider : string)
    (email password : option string) (userData : option RegisterData) (w : World) :
  provider ≠ "google" →
  missing email = true ∨ missing password = true ∨ userData = None →
  handleSignup account provider email password userData w =
    (Throws (Error "Email, password, and user data are required for email signup"),
     {| user := user w; isLoading := false;
        effects := effects w ++
          [ConsoleError "Signup error:"
             (Error "Email, password, and user data are required for email signup")];
        backend := backend w |}).
Proof.
  intros Hp Hmiss. unfold handleSignup. run.
  destruct (decide (provider = "google")); [done|].
  destruct (missing email || missing password) eqn:E, userData as [data|]; cbn;
    try done.
  apply orb_false_elim in E as [E1 E2].
  destruct Hmiss as [H|[H|H]]; congruence.
Qed.

(** An empty password. *)
Lemma handleSignup_missing_input_witness :
  (handleSignup Sample2.in_session "email" (Some "n@b.com") (Some EmptyString)
     (Some Sample2.newcomer) (Sample.world None false Sample.online)).1 =
    Throws (Error "Email, password, and user data are required for email signup").
Proof.
  rewrite (handleSignup_missing_input Sample2.in_session "email" (Some "n@b.com")
             (Some EmptyString) (Some Sample2.newcomer)
             (Sample.world None false Sample.online)).
  - reflexivity.
  - discriminate.
  - right. left. reflexivity.
Defined.

(** X26. In an e-mail sign-up with all three inputs, the [email] and
    [password] arguments are only tested for presence: the account is
    created from [userData], and the outcome, the user, the loading flag and
    the backend are those of [register] on [userData]. *)
Theorem handleSignup_is_register (account : AccountService) (provider : string)
    (email password : option string) (data : RegisterData) (w : World) :
  provider ≠ "google" →
  missing email = false → missing password = false →
  (handleSignup account provider email password (Some data) w).1 =
    (register account data w).1 ∧
  user (handleSignup account provider email password (Some data) w).2 =
    user (register account data w).2 ∧
  isLoading (handleSignup account provider email password (Some data) w).2 =
    isLoading (register account data w).2 ∧
  backend (handleSignup account provider email password (Some data) w).2 =
    backend (register account data w).2 ∧
  backend (register account data w).2 = (svc_signUp account data (backend w)).2.
Proof.
  intros Hp He Hpw. unfold handleSignup, register, after_signUp. run.
  destruct (decide (provider = "google")); [done|].
  rewrite He, Hpw. cbn.
  destruct (svc_signUp account data (backend w))
    as [[[[[u|] [s|]]|error]|err] b]; cbn; done.
Qed.

(** An address that is not the one in the user data. *)
Lemma handleSignup_is_register_witness :
  user (handleSignup Sample2.in_session "email" (Some "other@b.com") (Some "pw")
          (Some Sample2.newcomer) (Sample.world None false Sample.online)).2 =
  user (register Sample2.in_session Sample2.newcomer
          (Sample.world None false Sample.online)).2.
Proof.
  apply (handleSignup_is_register Sample2.in_session "email" (Some "other@b.com")
           (Some "pw") Sample2.newcomer (Sample.world None false Sample.online));
    [discriminate | reflexivity | reflexivity].
Defined.

(** X27. The hand-off to Google, from [loginWithGoogle] or from
    [handleSignup], and the password reset never change the local user, and
    leave the loading flag false, whatever the service answers or throws. *)
Theorem handoffs_keep_the_user (account : AccountService) (email : string)
    (emailArg passwordArg : option string) (userData : option RegisterData)
    (w : World) :
  (user (loginWithGoogle account w).2 = user w ∧
   isLoading (loginWithGoogle account w).2 = false) ∧
  (user (handleSignup account "google" emailArg passwordArg userData w).2 = user w ∧
   isLoading (handleSignup account "google" emailArg passwordArg userData w).2 = false) ∧
  (user (resetPassword account email w).2 = user w ∧
   isLoading (resetPassword account email w).2 = false).
Proof.
  split_and!.
  1,2: unfold loginWithGoogle; run;
       by destruct (svc_signInWithGoogle account (backend w)) as [[[d|error]|err] b].
  1,2: unfold handleSignup; run;
       destruct (decide ("google" = "google")); [|congruence]; cbn;
       by destruct (svc_signInWithGoogle account (backend w)) as [[[d|error]|err] b].
  1,2: unfold resetPassword; run;
       by destruct (svc_resetPassword account email (backend w)) as [[[d|error]|err] b].
Qed.

(** ** The provider: bootstrap *)

(** X28. The bootstrap never throws and always ends with the loading flag
    false. It installs a user only when the session fetch succeeds with a
    session and the user fetch succeeds with a user; without a session the
    user fetch is not called, and a rejected fetch leaves the user as it
    was. *)
Theorem getInitialSession_spec (auth : AuthService) (account : AccountService)
    (w : World) :
  (getInitialSession auth account w).1 = Returns tt ∧
  isLoading (getInitialSession auth account w).2 = false ∧
  match svc_getCurrentSession account (backend w) with
  | (Returns (Success (Some _)), b) =>
      match svc_getCurrentUser auth b with
      | (Returns (Success (Some data)), b') =>
          user (getInitialSession auth account w).2 = Some data ∧
          backend (getInitialSession auth account w).2 = b'
      | (_, b') =>
          user (getInitialSession auth account w).2 = user w ∧
          backend (getInitialSession auth account w).2 = b'
      end
  | (_, b) =>
      user (getInitialSession auth account w).2 = user w ∧
      backend (getInitialSession auth account w).2 = b
  end.
Proof.
  unfold getInitialSession. run.
  destruct (svc_getCurrentSession account (backend w)) as [[[[s|]|error]|err] b];
    cbn; try done.
  destruct (svc_getCurrentUser auth b) as [[[[data|]|error]|err] b']; cbn; done.
Qed.

(** A page load with a live session, and one with the platform out of
    reach. *)
Lemma getInitialSession_spec_witness :
  user (getInitialSession supabaseAuth Sample2.in_session
          (Sample.world None true Sample.online)).2 = Some Sample.ana ∧
  (getInitialSession Sample.rejecting Sample2.unreachable
     (Sample.world None true Sample.offline)).1 = Returns tt.
Proof.
  split.
  - pose proof (getInitialSession_spec supabaseAuth Sample2.in_session
                  (Sample.world None true Sample.online)) as (_ & _ & H).
    exact (proj1 H).
  - exact (proj1 (getInitialSession_spec Sample.rejecting Sample2.unreachable
                    (Sample.world None true Sample.offline))).
Defined.

(** ** The OAuth callback page *)

(** The target of the page's immediate navigation is one of the four
    dashboards, whatever the current user and the metadata. *)
Lemma destination_is_dashboard (user : option User) (metadata_role : jsval) :
  OAuthCallbackPage.destination user metadata_role ∈ dashboards ∧
  OAuthCallbackPage.destination user metadata_role =
    OAuthCallbackPage.destination None metadata_role ∧
  (truthy metadata_role = false →
   OAuthCallbackPage.destination user metadata_role = "/customer").
Proof.
  unfold OAuthCallbackPage.destination, OAuthCallbackPage.getDashboardPath,
    dashboards. cbv zeta.
  assert (Ht : truthy (js_or metadata_role (JStr "CUSTOMER")) = true).
  { unfold js_or. by destruct (truthy metadata_role) eqn:E. }
  assert (Hor : ∀ v, js_or (js_or metadata_role (JStr "CUSTOMER")) v =
                     js_or metadata_role (JStr "CUSTOMER")).
  { intros v. unfold js_or at 1. by rewrite Ht. }
  rewrite !Hor, Ht. cbn [negb].
  split_and!.
  - repeat (destruct (is_str _ _)); member.
  - done.
  - intros Hf. unfold js_or. rewrite Hf. reflexivity.
Qed.

(** X29. The callback handler of the page never throws. When the
    environment is configured and [getSession] resolves without an error to
    a session, it toasts and navigates at once, to one of the four
    dashboards: never to the root, whatever the current user is, and to the
    customer surface when the metadata has no role. On every other path
    (configuration missing or left at the placeholder, [getSession]
    rejecting or answering with an error, no session) it navigates nowhere
    at once: it records a non-empty error message, toasts 'Login failed: '
    followed by that message, and hands a navigation to '/login' to a
    3000 ms timer. *)
Theorem callback_page_navigation (user : option User)
    (supabaseUrl supabaseKey : option string)
    (getSession : Outcome OAuthCallbackPage.SessionAnswer)
    (p : OAuthCallbackPage.Page) :
  let after :=
    OAuthCallbackPage.handleOAuthCallback user supabaseUrl supabaseKey getSession p in
  after.1 = Returns tt ∧
  match OAuthCallbackPage.established supabaseUrl supabaseKey getSession with
  | Some session =>
      after.2 =
        {| OAuthCallbackPage.pg_status := "Login successful! Redirecting...";
           OAuthCallbackPage.pg_error := OAuthCallbackPage.pg_error p;
           OAuthCallbackPage.pg_effects :=
             OAuthCallbackPage.pg_effects p ++
             [OAuthCallbackPage.Now (ToastSuccess "Login successful!");
              OAuthCallbackPage.Now (ConsoleLog "Redirecting to:");
              OAuthCallbackPage.Now
                (Navigate (OAuthCallbackPage.destination user
                             (OAuthCallbackPage.ps_metadata_role session)))] |} ∧
      OAuthCallbackPage.destination user
        (OAuthCallbackPage.ps_metadata_role session) ∈ dashboards ∧
      OAuthCallbackPage.destination user
        (OAuthCallbackPage.ps_metadata_role session) =
      OAuthCallbackPage.destination None
        (OAuthCallbackPage.ps_metadata_role session) ∧
      (truthy (OAuthCallbackPage.ps_metadata_role session) = false →
       OAuthCallbackPage.destination user
         (OAuthCallbackPage.ps_metadata_role session) = "/customer")
  | None =>
      ∃ msg logs,
        msg ≠ EmptyString ∧
        OAuthCallbackPage.pg_error after.2 = Some msg ∧
        OAuthCallbackPage.pg_status after.2 = "Finishing sign in..." ∧
        OAuthCallbackPage.pg_effects after.2 =
          (OAuthCallbackPage.pg_effects p ++ logs ++
           [OAuthCallbackPage.Now (ToastError ("Login failed: " +:+ msg));
            OAuthCallbackPage.After 3000 (Navigate "/login")])%list ∧
        Forall (λ e, ∃ label err, e = OAuthCallbackPage.Now (ConsoleError label err))
          logs
  end.
Proof.
  cbv zeta.
  unfold OAuthCallbackPage.handleOAuthCallback, OAuthCallbackPage.established,
    OAuthCallbackPage.setStatus, OAuthCallbackPage.setError,
    OAuthCallbackPage.perform, OAuthCallbackPage.settle,
    OAuthCallbackPage.message_of.
  run.
  destruct (OAuthCallbackPage.not_configured supabaseUrl supabaseKey); cbn.
  { split; [done|]. eexists _, [_]. rewrite <- !app_assoc. cbn.
    split_and!; [| reflexivity | reflexivity | reflexivity |]; [done|].
    repeat constructor. eauto. }
  destruct getSession as [[[session|] [sessionError|]]|err]; cbn.
  - split; [done|]. case_decide as Hm; [done|].
    eexists _, [_; _]. rewrite <- !app_assoc. cbn.
    split_and!; [exact Hm | reflexivity | reflexivity | reflexivity |].
    repeat constructor; eauto.
  - split; [done|]. rewrite <- !app_assoc. cbn.
    split; [done|]. apply destination_is_dashboard.
  - split; [done|]. case_decide as Hm; [done|].
    eexists _, [_; _]. rewrite <- !app_assoc. cbn.
    split_and!; [exact Hm | reflexivity | reflexivity | reflexivity |].
    repeat constructor; eauto.
  - split; [done|]. eexists _, [_]. rewrite <- !app_assoc. cbn.
    split_and!; [| reflexivity | reflexivity | reflexivity |]; [done|].
    repeat constructor. eauto.
  - split; [done|]. case_decide as Hm.
    + eexists _, [_]. rewrite <- !app_assoc. cbn.
      split_and!; [| reflexivity | reflexivity | reflexivity |]; [done|].
      repeat constructor. eauto.
    + eexists _, [_]. rewrite <- !app_assoc. cbn.
      split_and!; [exact Hm | reflexivity | reflexivity | reflexivity |].
      repeat constructor. eauto.
Qed.

(** A session without a role while Ana, a vendor, is the current user; and a
    project URL still at its placeholder. *)
Lemma callback_page_navigation_witness :
  OAuthCallbackPage.pg_effects
    (OAuthCallbackPage.handleOAuthCallback (Some Sample.ana)
       (Some "https://abc.supabase.co") (Some "key") Sample2.plain_session
       Sample2.fresh_page).2 =
    [OAuthCallbackPage.Now (ToastSuccess "Login successful!");
     OAuthCallbackPage.Now (ConsoleLog "Redirecting to:");
     OAuthCallbackPage.Now (Navigate "/customer")] ∧
  ∃ msg,
    OAuthCallbackPage.pg_error
      (OAuthCallbackPage.handleOAuthCallback (Some Sample.ana)
         (Some "https://your-project-id.supabase.co") (Some "key")
         Sample2.plain_session Sample2.fresh_page).2 = Some msg ∧
    msg ≠ EmptyString.
Proof.
  split.
  - rewrite (proj1 (proj2 (callback_page_navigation (Some Sample.ana)
                             (Some "https://abc.supabase.co") (Some "key")
                             Sample2.plain_session Sample2.fresh_page))).
    reflexivity.
  - destruct (proj2 (callback_page_navigation (Some Sample.ana)
                       (Some "https://your-project-id.supabase.co") (Some "key")
                       Sample2.plain_session Sample2.fresh_page))
      as (msg & logs & Hmsg & Herr & _).
    exists msg. split; [exact Herr | exact Hmsg].
Defined.
